(** * Mu: the editor's application logic ([mu/editor.py]) over its window
    ([mu/interface.py]), as a shallow embedding.

    Python values are modelled as follows.
    - A [str] is a [string]; a [bytes] value is the [string] of its bytes, so
      that [text.encode('utf-8')] is the identity on the model.
    - [None]-or-[str] attributes ([EditorPane.path], the results of the device
      locators) are [option string]; Python truthiness is [truthy].
    - The file system is a finite map from path to content.  Only the
      missing-file failure of [open] is modelled (the one the source handles);
      permissions, directories and partial writes are outside the model.
    - Methods run in the monad [M]: they thread the [World] (editor, window
      and file system) and either return or raise a Python exception. *)

From Stdlib Require Import String Ascii ZArith List Lia.
From stdpp Require Import base option list strings gmap.

Local Open Scope string_scope.

(** ** Python strings and [os.path] (POSIX flavour) *)

(** [s.endswith(suffix)]: some tail of [s] is [suffix]. *)
Fixpoint endswith (s suffix : string) : bool :=
  String.eqb s suffix ||
  match s with
  | EmptyString => false
  | String _ s' => endswith s' suffix
  end.

(** [s.startswith(prefix)]. *)
Definition startswith (s prefix : string) : bool := String.prefix prefix s.

(** ['/' in s]. *)
Fixpoint has_sep (s : string) : bool :=
  match s with
  | EmptyString => false
  | String c s' => Ascii.eqb c "/" || has_sep s'
  end.

(** [posixpath.basename(p)]: [p[p.rfind('/') + 1:]]. *)
Fixpoint basename (p : string) : string :=
  match p with
  | EmptyString => EmptyString
  | String c rest =>
      if has_sep rest then basename rest
      else if Ascii.eqb c "/" then rest else p
  end.

(** [posixpath.join(a, b)]. *)
Definition os_path_join (a b : string) : string :=
  if startswith b "/" then b
  else if String.eqb a "" || endswith a "/" then a ++ b
  else a ++ "/" ++ b.

(** Truthiness of a value that is [None] or a [str]. *)
Definition truthy (v : option string) : bool :=
  match v with
  | Some (String _ _) => true
  | _ => false
  end.

(** ** Exceptions and outcomes *)

Inductive exn :=
| RuntimeError (msg : string)
| NotImplementedError (msg : string)
| IOError (msg : string)
| FileNotFoundError (filename : string)
| ValueError (msg : string)
| AttributeError (msg : string)
| ScriptTooLarge
| NoScriptFound
| SystemExit (code : Z).

(** [str(ex)]. *)
Definition exn_str (e : exn) : string :=
  match e with
  | RuntimeError m | NotImplementedError m | IOError m | ValueError m
  | AttributeError m => m
  | FileNotFoundError f =>
      "[Errno 2] No such file or directory: '" ++ f ++ "'"
  | ScriptTooLarge => "ScriptTooLarge"
  | NoScriptFound => "NoScriptFound"
  | SystemExit c => if Z.eqb c 0 then "0" else "1"
  end.

(** [except IOError]: in Python 3, [IOError] is [OSError], the parent of
    [FileNotFoundError]. *)
Definition is_IOError (e : exn) : bool :=
  match e with
  | IOError _ | FileNotFoundError _ => true
  | _ => false
  end.

(** [except FileNotFoundError]. *)
Definition is_FileNotFoundError (e : exn) : bool :=
  match e with
  | FileNotFoundError _ => true
  | _ => false
  end.

(** What a call into a library does: return a value or raise. *)
Inductive pyres (A : Type) :=
| Return (a : A)
| Throw (e : exn).
Arguments Return {A} a.
Arguments Throw {A} e.

(** ** The host: everything the editor imports but does not define *)

Class Host := {
  (** [os.name]. *)
  os_name : string;
  (** [os.path.expanduser('~')]. *)
  HOME_DIRECTORY : string;
  (** [appdirs.user_data_dir('mu', 'python')]. *)
  DATA_DIR : string;
  (** [json.load] on the text of a file, for the session format (a JSON array
      of strings); any other text is a raised error in the model. *)
  json_load : string -> pyres (list string);
  (** [json.dump(paths, out, indent=2)]: the text written. *)
  json_dump : list string -> string;
  (** [uflash._RUNTIME], [uflash.hexlify], [uflash.embed_hex] and
      [uflash.extract_script]. *)
  uflash_RUNTIME : string;
  hexlify : string -> pyres string;
  embed_hex : string -> string -> pyres string;
  extract_script : string -> pyres string;
}.

(** ** The world: window, editor and file system *)

(** [interface.EditorPane]: the attributes the editor reads and writes. *)
Record EditorPane := {
  path : option string;
  text : string;
  modified : bool;
}.

(** [EditorPane.__init__(path, text)]. *)
Definition new_EditorPane (p : option string) (t : string) : EditorPane :=
  {| path := p; text := t; modified := false |}.

(** [EditorPane.label]. *)
Definition label (tab : EditorPane) : string :=
  let l := match path tab with
           | Some p => if truthy (Some p) then basename p else "untitled"
           | None => "untitled"
           end in
  if modified tab then l ++ " *" else l.

(** [editor.REPL]: a reference to the port. *)
Record REPL := { port : string }.

(** [repl.REPLPane], the widget shown for a live session. *)
Record REPLPane := { pane_port : string }.

(** Answer of the confirmation dialog ([QMessageBox.exec()]). *)
Inductive button := QOk | QCancel.

(** Positional arguments Qt passes to a slot. *)
Inductive qt_arg :=
| QCloseEvent        (* has an [ignore] method *)
| QChecked (b : bool).

Definition has_ignore (a : qt_arg) : bool :=
  match a with QCloseEvent => true | QChecked _ => false end.

(** What the user has been shown or asked, oldest first. *)
Inductive event :=
| GetLoadPath (folder : string)
| GetSavePath (folder : string)
| ShowMessage (message : string) (information icon : option string)
| ShowConfirmation (message : string)
| EventIgnored.

Definition is_message (e : event) : bool :=
  match e with ShowMessage _ _ _ => true | _ => false end.

Record World := {
  fs : gmap string string;       (* file system: path |-> content *)
  editor_repl : option REPL;     (* Editor.repl *)
  editor_theme : string;         (* Editor.theme *)
  tabs : list EditorPane;        (* Window.tabs, in tab order *)
  current_index : nat;           (* Window.tabs.currentIndex() *)
  view_theme : string;           (* Window.theme *)
  view_repl : option REPLPane;   (* Window.repl *)
  splitter : list REPLPane;      (* REPL panes parented to Window.splitter *)
  trace : list event;            (* dialogs shown so far *)
}.

Definition set_fs (f : gmap string string -> gmap string string) (w : World) :=
  {| fs := f (fs w); editor_repl := editor_repl w;
     editor_theme := editor_theme w; tabs := tabs w;
     current_index := current_index w; view_theme := view_theme w;
     view_repl := view_repl w; splitter := splitter w; trace := trace w |}.

Definition set_editor_repl (r : option REPL) (w : World) :=
  {| fs := fs w; editor_repl := r;
     editor_theme := editor_theme w; tabs := tabs w;
     current_index := current_index w; view_theme := view_theme w;
     view_repl := view_repl w; splitter := splitter w; trace := trace w |}.

Definition set_editor_theme (t : string) (w : World) :=
  {| fs := fs w; editor_repl := editor_repl w;
     editor_theme := t; tabs := tabs w;
     current_index := current_index w; view_theme := view_theme w;
     view_repl := view_repl w; splitter := splitter w; trace := trace w |}.

Definition set_tabs (ts : list EditorPane) (cur : nat) (w : World) :=
  {| fs := fs w; editor_repl := editor_repl w;
     editor_theme := editor_theme w; tabs := ts;
     current_index := cur; view_theme := view_theme w;
     view_repl := view_repl w; splitter := splitter w; trace := trace w |}.

Definition set_view_theme (t : string) (w : World) :=
  {| fs := fs w; editor_repl := editor_repl w;
     editor_theme := editor_theme w; tabs := tabs w;
     current_index := current_index w; view_theme := t;
     view_repl := view_repl w; splitter := splitter w; trace := trace w |}.

Definition set_view_repl (r : option REPLPane) (panes : list REPLPane)
    (w : World) :=
  {| fs := fs w; editor_repl := editor_repl w;
     editor_theme := editor_theme w; tabs := tabs w;
     current_index := current_index w; view_theme := view_theme w;
     view_repl := r; splitter := panes; trace := trace w |}.

Definition log (e : event) (w : World) :=
  {| fs := fs w; editor_repl := editor_repl w;
     editor_theme := editor_theme w; tabs := tabs w;
     current_index := current_index w; view_theme := view_theme w;
     view_repl := view_repl w; splitter := splitter w;
     trace := trace w ++ [e] |}.

(** The messages shown so far. *)
Definition messages (w : World) : list event :=
  List.filter is_message (trace w).

(** Two worlds that differ at most in what the user has been shown. *)
Definition same_state (w w' : World) : Prop :=
  fs w' = fs w /\ editor_repl w' = editor_repl w
  /\ editor_theme w' = editor_theme w /\ tabs w' = tabs w
  /\ current_index w' = current_index w /\ view_theme w' = view_theme w
  /\ view_repl w' = view_repl w /\ splitter w' = splitter w.

(** ** The monad of methods *)

Inductive outcome (A : Type) :=
| Ok (a : A) (w : World)
| Raise (e : exn) (w : World).
Arguments Ok {A} a w.
Arguments Raise {A} e w.

Definition M (A : Type) : Type := World -> outcome A.

#[export] Instance M_ret : MRet M := fun A a w => Ok a w.

#[export] Instance M_bind : MBind M := fun A B f m w =>
  match m w with
  | Ok a w' => f a w'
  | Raise e w' => Raise e w'
  end.

Definition raise {A} (e : exn) : M A := fun w => Raise e w.

Definition get {A} (f : World -> A) : M A := fun w => Ok (f w) w.

Definition modify (f : World -> World) : M unit := fun w => Ok tt (f w).

(** A call into the host: its value, or its exception raised here. *)
Definition call {A} (r : pyres A) : M A :=
  match r with
  | Return a => mret a
  | Throw e => raise e
  end.

(** [try: body / except <catches>: handler / else: orelse]. *)
Definition try_except_else {A B} (body : M A) (catches : exn -> bool)
    (handler : exn -> M B) (orelse : A -> M B) : M B := fun w =>
  match body w with
  | Ok a w' => orelse a w'
  | Raise e w' => if catches e then handler e w' else Raise e w'
  end.

(** [for x in l: body]. *)
Fixpoint for_each {A} (l : list A) (body : A -> M unit) : M unit :=
  match l with
  | [] => mret tt
  | x :: l' => body x ;; for_each l' body
  end.

(** The world a method leaves behind, however it ends. *)
Definition final {A} (o : outcome A) : World :=
  match o with Ok _ w | Raise _ w => w end.

(** ** Files *)

(** The file a path names; the empty path names none. *)
Definition lookup_file (p : string) (files : gmap string string)
    : option string :=
  if String.eqb p "" then None else files !! p.

(** [os.path.exists(p)]. *)
Definition os_path_exists (p : string) : M bool :=
  get (fun w => bool_decide (is_Some (lookup_file p (fs w)))).

(** [with open(p) as f: f.read()]. *)
Definition read_file (p : string) : M string := fun w =>
  match lookup_file p (fs w) with
  | Some content => Ok content w
  | None => Raise (FileNotFoundError p) w
  end.

(** [with open(p, 'w') as f: f.write(content)]. *)
Definition write_file (p content : string) : M unit := fun w =>
  if String.eqb p "" then Raise (FileNotFoundError p) w
  else Ok tt (set_fs (fun files => <[p := content]> files) w).

(** ** [interface.Window]: the part of the view the editor drives *)

Module Window.

(** [Window.current_tab]: [tabs.currentWidget()], [None] without tabs. *)
Definition current_tab : M (option EditorPane) :=
  get (fun w => tabs w !! current_index w).

(** [Window.get_load_path(folder)]; [answer] is what the dialog returns
    (the empty string when it is cancelled). *)
Definition get_load_path (folder answer : string) : M string :=
  modify (log (GetLoadPath folder)) ;; mret answer.

(** [Window.get_save_path(folder)]. *)
Definition get_save_path (folder answer : string) : M string :=
  modify (log (GetSavePath folder)) ;; mret answer.

(** [Window.add_tab(path, text)]: the new pane goes last and becomes the
    current one. *)
Definition add_tab (p : option string) (t : string) : M unit :=
  modify (fun w => set_tabs (tabs w ++ [new_EditorPane p t])
                            (length (tabs w)) w).

(** [Window.tab_count]. *)
Definition tab_count : M nat := get (fun w => length (tabs w)).

(** [Window.widgets]. *)
Definition widgets : M (list EditorPane) := get tabs.

(** [Window.modified]: some pane is modified. *)
Definition modified : M bool := get (fun w => existsb modified (tabs w)).

(** [pane.setParent(None)]: the pane leaves the splitter. *)
Fixpoint unparent (p : REPLPane) (panes : list REPLPane) : list REPLPane :=
  match panes with
  | [] => []
  | q :: rest =>
      if String.eqb (pane_port p) (pane_port q) then rest
      else q :: unparent p rest
  end.

(** [Window.add_repl(repl)].  [opened] is the outcome of constructing the
    [REPLPane] on the serial port: [None] when it opens, the error
    otherwise. *)
Definition add_repl (repl : REPL) (opened : option exn) : M unit :=
  match opened with
  | Some e => raise e
  | None =>
      modify (fun w =>
        let replpane := {| pane_port := port repl |} in
        set_view_repl (Some replpane) (splitter w ++ [replpane]) w)
  end.

(** [Window.remove_repl()]. *)
Definition remove_repl : M unit := fun w =>
  match view_repl w with
  | Some pane => Ok tt (set_view_repl None (unparent pane (splitter w)) w)
  | None =>
      Raise (AttributeError
               "'NoneType' object has no attribute 'setParent'") w
  end.

(** [Window.set_theme(theme)]. *)
Definition set_theme (theme : string) : M unit :=
  modify (set_view_theme theme).

(** [Window.show_message(message, information, icon)]. *)
Definition show_message (message : string) (information icon : option string)
    : M unit :=
  modify (log (ShowMessage message information icon)).

(** [Window.show_confirmation(message)]; [answer] is the button the user
    presses. *)
Definition show_confirmation (message : string) (answer : button)
    : M button :=
  modify (log (ShowConfirmation message)) ;; mret answer.

End Window.

(** ** [editor.Editor] *)

Module Editor.
Section WithHost.
Context `{Host}.

Definition MICROPYTHON_DIRECTORY : string :=
  os_path_join HOME_DIRECTORY "micropython".

Definition SESSION_FILE : string := os_path_join DATA_DIR "tabs.json".

(** The double-quote character. *)
Definition dquote : string :=
  String (Ascii false true false false false true false false) EmptyString.

(** [REPL.__init__(port)]. *)
Definition new_REPL (p : string) : M REPL :=
  if String.eqb os_name "posix" then mret {| port := "/dev/" ++ p |}
  else if String.eqb os_name "nt" then mret {| port := p |}
  else raise (NotImplementedError "OS not supported.").

(** Modelled from the spec: [uflash.save_hex(hex, path)] is absent from the
    sources; section 4.5 has the image written to the file at the target
    root. *)
Definition save_hex (hex_file p : string) : M unit := write_file p hex_file.

(** The placeholder script of a fresh session. *)
Definition py : string :=
  "from microbit import *" ++ String "010" (String "010" "# Write code here :-)").

(** [Editor.restore_session()]. *)
Definition restore_session : M unit :=
  present ← os_path_exists SESSION_FILE;
  (if present : bool then
     content ← read_file SESSION_FILE;
     session ← call (json_load content);
     match session with
     | [] => mret tt
     | _ :: _ =>
         for_each session (fun tab =>
           try_except_else (read_file tab)
             is_FileNotFoundError
             (fun _ => mret tt)
             (fun t => Window.add_tab (Some tab) t))
     end
   else mret tt) ;;
  n ← Window.tab_count;
  match n with
  | O => Window.add_tab None py
  | S _ => mret tt
  end.

(** [Editor.flash()].  [find_microbit] is what [uflash.find_microbit()]
    does at the time of the call. *)
Definition flash (find_microbit : pyres (option string)) : M unit :=
  current ← Window.current_tab;
  match current with
  | None => mret tt
  | Some tab =>
      let python_script := text tab in
      python_hex ← call (hexlify python_script);
      micropython_hex ← call (embed_hex uflash_RUNTIME python_hex);
      path_to_microbit ← call find_microbit;
      if truthy path_to_microbit then
        let hex_file :=
          os_path_join (default "" path_to_microbit) "micropython.hex" in
        save_hex micropython_hex hex_file ;;
        Window.show_message
          ("Flashing " ++ dquote ++ label tab ++ dquote
             ++ " onto the micro:bit.")
          (Some ("When the yellow LED stops flashing the device"
             ++ " will restart and your script will run. If there"
             ++ " is an error, you'll see a helpful message scroll"
             ++ " across the device's display."))
          (Some "Information")
      else
        Window.show_message "Could not find an attached BBC micro:bit."
          None None
  end.

(** [Editor.add_repl()].  [find_microbit] is what [repl.find_microbit()]
    does at the time of the call, [opened] the outcome of opening the
    port. *)
Definition add_repl (find_microbit : pyres (option string))
    (opened : option exn) : M unit :=
  running ← get editor_repl;
  match running with
  | Some _ => raise (RuntimeError "REPL already running")
  | None =>
      mb_port ← call find_microbit;
      if truthy mb_port then
        try_except_else
          (repl ← new_REPL (default "" mb_port);
           modify (set_editor_repl (Some repl)) ;;
           Window.add_repl repl opened)
          is_IOError
          (fun ex =>
             modify (set_editor_repl None) ;;
             Window.show_message (exn_str ex)
               (Some ("Click the device's reset button, wait a few"
                  ++ " seconds and then try again."))
               None)
          (fun _ => mret tt)
      else
        Window.show_message "Could not find an attached BBC micro:bit."
          (Some ("Please make sure the device is plugged into this"
             ++ " computer." ++ String "010" (String "010"
                ("The device must have MicroPython"
             ++ " flashed onto it before the REPL will work."
             ++ String "010" (String "010"
                ("Finally, press the device's reset button and wait"
             ++ " a few seconds before trying again."))))))
          None
  end.

(** [Editor.remove_repl()]. *)
Definition remove_repl : M unit :=
  running ← get editor_repl;
  match running with
  | None => raise (RuntimeError "REPL not running")
  | Some _ =>
      Window.remove_repl ;;
      modify (set_editor_repl None)
  end.

(** [Editor.toggle_repl()]. *)
Definition toggle_repl (find_microbit : pyres (option string))
    (opened : option exn) : M unit :=
  running ← get editor_repl;
  match running with
  | None => add_repl find_microbit opened
  | Some _ => remove_repl
  end.

(** [Editor.toggle_theme()]. *)
Definition toggle_theme : M unit :=
  theme ← get editor_theme;
  (if String.eqb theme "day" then modify (set_editor_theme "night")
   else modify (set_editor_theme "day")) ;;
  theme' ← get editor_theme;
  Window.set_theme theme'.

(** [Editor.new()]. *)
Definition new : M unit := Window.add_tab None "".

(** [Editor.load()]; [answer] is the path the load dialog returns. *)
Definition load (answer : string) : M unit :=
  p ← Window.get_load_path MICROPYTHON_DIRECTORY answer;
  try_except_else
    (if endswith p ".py" then
       t ← read_file p;
       mret (Some p, t)
     else
       content ← read_file p;
       t ← call (extract_script content);
       mret (None, t))
    is_FileNotFoundError
    (fun _ => mret tt)
    (fun named => Window.add_tab (fst named) (snd named)).

(** [tab.attr = value] on the pane at index [i]: the window's list holds
    the very object the method mutates. *)
Definition store_tab (i : nat) (tab : EditorPane) : M unit :=
  modify (fun w => set_tabs (<[i := tab]> (tabs w)) (current_index w) w).

(** [Editor.save()]; [answer] is the path the save dialog returns when it
    is asked. *)
Definition save (answer : string) : M unit :=
  current ← Window.current_tab;
  match current with
  | None => mret tt
  | Some tab =>
      i ← get current_index;
      tab ← match path tab with
            | None =>
                chosen ← Window.get_save_path MICROPYTHON_DIRECTORY answer;
                let tab := {| path := Some chosen; text := text tab;
                              modified := modified tab |} in
                store_tab i tab ;; mret tab
            | Some _ => mret tab
            end;
      if truthy (path tab) then
        let p := default "" (path tab) in
        tab ← (if negb (endswith (basename p) ".py") then
                 let tab := {| path := Some (p ++ ".py"); text := text tab;
                               modified := modified tab |} in
                 store_tab i tab ;; mret tab
               else mret tab);
        write_file (default "" (path tab)) (text tab) ;;
        store_tab i {| path := path tab; text := text tab;
                       modified := false |}
      else
        store_tab i {| path := None; text := text tab;
                       modified := modified tab |}
  end.

(** [Editor.zoom_in()] and [Editor.zoom_out()] only resize the fonts. *)
Definition zoom_in : M unit := mret tt.
Definition zoom_out : M unit := mret tt.

(** The loop of [quit] that collects the paths to persist. *)
Definition session_paths (ws : list EditorPane) : list string :=
  fold_left
    (fun widgets widget =>
       if truthy (path widget)
       then (widgets ++ [default "" (path widget)])%list
       else widgets)
    ws [].

(** [Editor.quit] with its positional arguments; [answer] is the button pressed in the
    confirmation dialog when it is shown.  [cancelled] stands for the
    early [return]. *)
Definition quit (args : list qt_arg) (answer : button) : M unit :=
  unsaved ← Window.modified;
  cancelled ←
    (if unsaved : bool then
       result ← Window.show_confirmation "You have un-saved work!" answer;
       match result with
       | QCancel =>
           match args with
           | a :: _ =>
               if has_ignore a then modify (log EventIgnored) else mret tt
           | [] => mret tt
           end ;;
           mret true
       | QOk => mret false
       end
     else mret false);
  if cancelled : bool then mret tt
  else
    ws ← Window.widgets;
    write_file SESSION_FILE (json_dump (session_paths ws)) ;;
    raise (SystemExit 0).

End WithHost.
End Editor.

Arguments Editor.SESSION_FILE : simpl never.
Arguments Editor.MICROPYTHON_DIRECTORY : simpl never.
Arguments Editor.session_paths : simpl never.

(** ** The image encoder ([mu/contrib/uflash.py], absent from the sources) *)

Module ImageEncoder.

Local Open Scope nat_scope.
Local Open Scope list_scope.

Definition bytes : Type := list Byte.byte.

(** Modelled from the spec: the constants of the record format, which
    sections 4.2 and 6 leave to the target board's documentation. *)
Record Format := {
  MAX_PAYLOAD : nat;   (* the fixed maximum payload of a record, in bytes *)
  MARKER : bytes;      (* the script's reserved marker *)
  SCRIPT_ADDR : N;     (* first address of the appended range *)
  CAPACITY : nat;      (* the most script bytes an image holds *)
}.

(** Modelled from the spec: a record of a firmware image (section 3)
    carries an address, a payload and a checksum. *)
Record record := {
  address : N;
  payload : bytes;
  checksum : N;
}.

(** Modelled from the spec: an image is a sequence of records closed by the
    end-of-data marker (sections 3 and 4.2). *)
Inductive entry :=
| Data (r : record)
| EndOfData.

Definition image : Type := list entry.

Definition byte_sum (data : bytes) : N :=
  fold_right (fun b acc => (Byte.to_N b + acc)%N) 0%N data.

(** Modelled from the spec: the checksum is computed over the raw byte
    values of the record (section 4.2): the two's complement, modulo 256,
    of the sum of its length, address bytes and payload. *)
Definition checksum_of (addr : N) (data : bytes) : N :=
  let total := (N.of_nat (length data) + addr mod 256
                + (addr / 256) mod 256 + byte_sum data)%N in
  ((256 - total mod 256) mod 256)%N.

Definition mk_record (addr : N) (data : bytes) : record :=
  {| address := addr; payload := data; checksum := checksum_of addr data |}.

Definition valid (r : record) : bool :=
  (checksum r =? checksum_of (address r) (payload r))%N.

Fixpoint has_prefix (m data : bytes) : bool :=
  match m, data with
  | [], _ => true
  | _ :: _, [] => false
  | a :: m', b :: data' => Byte.eqb a b && has_prefix m' data'
  end.

(** Script bytes a record holds next to the marker. *)
Definition data_per_record (fmt : Format) : nat :=
  MAX_PAYLOAD fmt - length (MARKER fmt).

(** Records available to a script of [CAPACITY] bytes. *)
Definition max_records (fmt : Format) : nat :=
  CAPACITY fmt / data_per_record fmt + 1.

(** The appended address range. *)
Definition in_region (fmt : Format) (a : N) : bool :=
  ((SCRIPT_ADDR fmt <=? a)
   && (a <? SCRIPT_ADDR fmt
            + N.of_nat (max_records fmt * MAX_PAYLOAD fmt)))%N.

(** Cut [s] into pieces of [size] bytes, the last one shorter; an empty
    script still takes one (empty) piece. *)
Fixpoint chunks (fuel size : nat) (s : bytes) : list bytes :=
  match fuel with
  | O => [s]
  | S fuel' =>
      if length s <=? size then [s]
      else take size s :: chunks fuel' size (drop size s)
  end.

(** One record per piece, at consecutive addresses, each bearing the
    marker. *)
Fixpoint records_from (fmt : Format) (addr : N) (pieces : list bytes)
    : list record :=
  match pieces with
  | [] => []
  | c :: rest =>
      mk_record addr (MARKER fmt ++ c)
      :: records_from fmt (addr + N.of_nat (MAX_PAYLOAD fmt))%N rest
  end.

Definition script_records (fmt : Format) (script : bytes) : list record :=
  records_from fmt (SCRIPT_ADDR fmt)
    (chunks (length script) (data_per_record fmt) script).

(** The records of an image up to its end-of-data marker. *)
Fixpoint own_records (img : image) : list record :=
  match img with
  | [] => []
  | EndOfData :: _ => []
  | Data r :: rest => r :: own_records rest
  end.

(** Modelled from the spec: [embed(base_image, script)] (section 4.2)
    serialises the script into records of bounded payload, appends them
    after the base image's own records and closes with the end-of-data
    marker; a script over capacity is [ScriptTooLarge]. *)
Definition embed (fmt : Format) (base : image) (script : bytes)
    : pyres image :=
  if CAPACITY fmt <? length script then Throw ScriptTooLarge
  else Return (map Data (own_records base ++ script_records fmt script)
                 ++ [EndOfData]).

Definition is_script_record (fmt : Format) (r : record) : bool :=
  in_region fmt (address r) && has_prefix (MARKER fmt) (payload r)
  && valid r.

Fixpoint insert_by_address (r : record) (rs : list record) : list record :=
  match rs with
  | [] => [r]
  | x :: rest =>
      if (address r <=? address x)%N then r :: rs
      else x :: insert_by_address r rest
  end.

Definition sort_by_address (rs : list record) : list record :=
  fold_right insert_by_address [] rs.

(** The payload without the marker. *)
Definition decode (fmt : Format) (r : record) : bytes :=
  drop (length (MARKER fmt)) (payload r).

(** Modelled from the spec: [extract(image)] (section 4.2) scans the
    appended address range for records bearing the marker, concatenates
    their payloads in address order and decodes them; an image without
    such a record is [NoScriptFound]. *)
Definition extract (fmt : Format) (img : image) : pyres bytes :=
  match filter (fun r => is_script_record fmt r = true) (own_records img) with
  | [] => Throw NoScriptFound
  | rs => Return (concat (map (decode fmt) (sort_by_address rs)))
  end.

End ImageEncoder.

(** ** Runs of the application *)

(** [Editor.__init__(view)] on a freshly set up window, over the files
    [files]. *)
Definition initial (files : gmap string string) (theme : string) : World :=
  {| fs := files; editor_repl := None; editor_theme := "day";
     tabs := []; current_index := 0; view_theme := theme;
     view_repl := None; splitter := []; trace := [] |}.

(** What can happen next: a method of the editor is invoked with the answers
    of its surroundings, or something outside of it changes the tabs (the
    user types, switches or closes tabs) or the files. *)
Inductive op :=
| RestoreSession
| Flash (find_microbit : pyres (option string))
| AddRepl (find_microbit : pyres (option string)) (opened : option exn)
| RemoveRepl
| ToggleRepl (find_microbit : pyres (option string)) (opened : option exn)
| ToggleTheme
| New
| Load (answer : string)
| Save (answer : string)
| ZoomIn
| ZoomOut
| Quit (args : list qt_arg) (answer : button)
| Outside (ts : list EditorPane) (cur : nat) (files : gmap string string).

Definition run_op `{Host} (o : op) : M unit :=
  match o with
  | RestoreSession => Editor.restore_session
  | Flash f => Editor.flash f
  | AddRepl f opened => Editor.add_repl f opened
  | RemoveRepl => Editor.remove_repl
  | ToggleRepl f opened => Editor.toggle_repl f opened
  | ToggleTheme => Editor.toggle_theme
  | New => Editor.new
  | Load answer => Editor.load answer
  | Save answer => Editor.save answer
  | ZoomIn => Editor.zoom_in
  | ZoomOut => Editor.zoom_out
  | Quit args answer => Editor.quit args answer
  | Outside ts cur files =>
      modify (fun w => set_fs (fun _ => files) (set_tabs ts cur w))
  end.

(** The worlds the application can be in.  A method that raises leaves the
    world as it was when the exception left it. *)
Inductive reachable `{Host} : World -> Prop :=
| reachable_initial files theme : reachable (initial files theme)
| reachable_step w o : reachable w -> reachable (final (run_op o w)).

(** ** The session store, in the words of the specification *)

(** The documents a session restores: one per listed path whose file exists,
    in the order of the list. *)
Definition existing (files : gmap string string) (session : list string)
    : list EditorPane :=
  omap (fun p => new_EditorPane (Some p) <$> lookup_file p files) session.

(** The paths a session persists: those of the documents that have one. *)
Definition persisted (ws : list EditorPane) : list string :=
  omap (fun widget => if truthy (path widget) then path widget else None) ws.

(** The extension convention of [save]. *)
Definition with_extension (p : string) : string :=
  if endswith (basename p) ".py" then p else p ++ ".py".

(** ** A host to run the model on *)

(** [c * n]. *)
Fixpoint replicate_string (n : nat) (c : ascii) : string :=
  match n with
  | O => EmptyString
  | S n' => String c (replicate_string n' c)
  end.

(** [s.split(sep)] for a one-character separator, without empty pieces at
    the end. *)
Fixpoint split_on (sep : ascii) (cur s : string) : list string :=
  match s with
  | EmptyString => if String.eqb cur "" then [] else [cur]
  | String c s' =>
      if Ascii.eqb c sep then cur :: split_on sep "" s'
      else split_on sep (cur ++ String c "") s'
  end.

(** [s[len(prefix):]] when [s] starts with [prefix]. *)
Fixpoint strip_prefix (prefix s : string) : option string :=
  match prefix, s with
  | EmptyString, _ => Some s
  | String a prefix', String b s' =>
      if Ascii.eqb a b then strip_prefix prefix' s' else None
  | String _ _, EmptyString => None
  end.

(** Modelled from the spec: [uflash] is absent from the sources, so this
    POSIX host has an encoder as section 4.2 describes it.  [hexlify] refuses
    a script over capacity (8188 bytes) with [ScriptTooLarge], [embed_hex]
    puts the script after the runtime, and [extract_script] gives it back or
    fails with [NoScriptFound] when the image holds none.  The session codec
    keeps one path per line. *)
Definition posix_host : Host := {|
  os_name := "posix";
  HOME_DIRECTORY := "/home/mu";
  DATA_DIR := "/home/mu/.local/share/mu";
  json_load := fun content => Return (split_on "010" "" content);
  json_dump := fun paths => String.concat (String "010" "") paths;
  uflash_RUNTIME := ":020000040000FA" ++ String "010" "";
  hexlify := fun script =>
    if (8188 <? N.of_nat (String.length script))%N then Throw ScriptTooLarge
    else Return script;
  embed_hex := fun runtime hex => Return (runtime ++ hex);
  extract_script := fun content =>
    match strip_prefix (":020000040000FA" ++ String "010" "") content with
    | Some (String c script) => Return (String c script)
    | _ => Throw NoScriptFound
    end;
|}.

(** A world with the given files and tabs, the first tab current. *)
Definition world_of (files : gmap string string) (ts : list EditorPane)
    : World :=
  set_tabs ts 0 (initial files "day").

(** [add_tab] for each of [docs] in turn. *)
Definition add_tabs (docs : list EditorPane) (w : World) : World :=
  fold_left (fun w d => set_tabs (tabs w ++ [d]) (length (tabs w)) w) docs w.

(** The loop of [restore_session] over the listed paths. *)
Definition restore_loop (session : list string) : M unit :=
  for_each session (fun tab =>
    try_except_else (read_file tab)
      is_FileNotFoundError
      (fun _ => mret tt)
      (fun t => Window.add_tab (Some tab) t)).

(** [os.path.exists(p)] as a test on the files. *)
Definition file_exists (files : gmap string string) (p : string) : bool :=
  match lookup_file p files with Some _ => true | None => false end.

(** ** Statements of the specification that the code does not bear out *)

(** Flashing without a device, as claimed: with an active document and no
    mass-storage device, [flash] returns having shown the "not found" message
    and written no file. *)
Definition flash_no_device_claim `{Host} (w : World) : Prop :=
  is_Some (tabs w !! current_index w) ->
  exists w',
    Editor.flash (Return None) w = Ok tt w'
    /\ messages w' =
         (messages w
            ++ [ShowMessage "Could not find an attached BBC micro:bit."
                  None None])%list
    /\ fs w' = fs w.

(** Loading an image without a script, as claimed: [load] on a file that is
    not a script and in which the extractor finds no script shows a message
    to the user and adds no tab. *)
Definition load_no_script_claim `{Host} (w : World) (p : string) : Prop :=
  forall content,
    endswith p ".py" = false ->
    lookup_file p (fs w) = Some content ->
    extract_script content = Throw NoScriptFound ->
    messages (final (Editor.load p w)) <> messages w
    /\ tabs (final (Editor.load p w)) = tabs w.

(** A document too large for the sample host's encoder. *)
Definition oversized_world : World :=
  world_of ∅ [new_EditorPane None (replicate_string (2 ^ 13) "#")].

(** A firmware image that is the bare runtime, on a mounted device. *)
Definition bare_image_world : World :=
  world_of {[ "/media/MICROBIT/micropython.hex" :=
                ":020000040000FA" ++ String "010" "" ]} [].

(** ** Sample worlds *)

(** One saved script with unsaved changes and one untitled buffer. *)
Definition editing_world : World :=
  world_of ∅
    [ {| path := Some "/home/mu/micropython/blink.py";
         text := "display.scroll('hi')"; modified := true |};
      new_EditorPane None "" ].

(** An untitled buffer holding a script. *)
Definition untitled_world : World :=
  world_of ∅
    [ {| path := None; text := "display.scroll('hi')"; modified := true |} ].

(** A session of three paths, the second of which is gone. *)
Definition stale_session_world : World :=
  initial
    {[ "/home/mu/.local/share/mu/tabs.json" :=
         "/a.py" ++ String "010" ("/b.py" ++ String "010" "/c.py");
       "/a.py" := "A";
       "/c.py" := "C" ]}
    "day".

(** A record format to run the encoder on: records of 16 bytes, a two-byte
    marker, and room for 8188 bytes of script from address 0x3E000. *)
Definition sample_format : ImageEncoder.Format :=
  {| ImageEncoder.MAX_PAYLOAD := 16;
     ImageEncoder.MARKER := [Byte.x4d; Byte.x50];
     ImageEncoder.SCRIPT_ADDR := 253952;
     ImageEncoder.CAPACITY := 2 ^ 13 - 4 |}.

(** A base image of two records, without a script. *)
Definition sample_runtime : ImageEncoder.image :=
  [ ImageEncoder.Data
      (ImageEncoder.mk_record 0 [Byte.x00; Byte.x40; Byte.x00; Byte.x20]);
    ImageEncoder.Data
      (ImageEncoder.mk_record 16 [Byte.xff; Byte.xff]);
    ImageEncoder.EndOfData ].

(** A script of twenty bytes: it takes two records. *)
Definition sample_script : ImageEncoder.bytes :=
  [ Byte.x64; Byte.x69; Byte.x73; Byte.x70; Byte.x6c; Byte.x61; Byte.x79;
    Byte.x2e; Byte.x73; Byte.x63; Byte.x72; Byte.x6f; Byte.x6c; Byte.x6c;
    Byte.x28; Byte.x27; Byte.x68; Byte.x69; Byte.x27; Byte.x29 ].

(** ** The live session *)

(** What a world holds of the live session: the editor's reference, the
    window's pane and the panes parented to the splitter. *)
Definition repl_state (w : World)
    : option REPL * option REPLPane * list REPLPane :=
  (editor_repl w, view_repl w, splitter w).

(** The number of live sessions: the REPL panes on screen. *)
Definition live_sessions (w : World) : nat := length (splitter w).

(** Either no pane is on screen, or exactly the one the window refers to, and
    then the editor holds a session. *)
Definition session_invariant (w : World) : Prop :=
  (splitter w = [] /\ view_repl w = None)
  \/ (exists pane, splitter w = [pane] /\ view_repl w = Some pane
                   /\ is_Some (editor_repl w)).

(** A method that leaves the live session alone, however it ends. *)
Definition keeps_session {A} (c : M A) : Prop :=
  forall w, repl_state (final (c w)) = repl_state w.

(** ** What a method leaves alone *)

(** A method that leaves one aspect of the world as it was, however it
    ends. *)
Definition preserves {A B} (aspect : World -> B) (c : M A) : Prop :=
  forall w, aspect (final (c w)) = aspect w.

(** A method that writes no file other than those [allowed]. *)
Definition writes_only {A} (allowed : string -> Prop) (c : M A) : Prop :=
  forall w p, ~ allowed p -> fs (final (c w)) !! p = fs w !! p.

(** The files the editor may write: scripts, the image on the device and its
    own session file. *)
Definition editor_file `{Host} (p : string) : Prop :=
  endswith p ".py" = true
  \/ endswith p "micropython.hex" = true
  \/ p = Editor.SESSION_FILE.

(** The name [REPL.__init__] gives the port on this host, when it knows the
    host. *)
Definition port_name `{Host} (mb_port : string) : option string :=
  if String.eqb os_name "posix" then Some ("/dev/" ++ mb_port)
  else if String.eqb os_name "nt" then Some mb_port
  else None.

(** The documents of a run that have a path. *)
Definition titled (ws : list EditorPane) : list EditorPane :=
  List.filter (fun widget => truthy (path widget)) ws.

(** A document that is in step with its file: it has its path, its file
    holds its text and it is not modified. *)
Definition in_step (files : gmap string string) (widget : EditorPane)
    : Prop :=
  match path widget with
  | Some p => lookup_file p files = Some (text widget)
              /\ modified widget = false
  | None => True
  end.

(** Two documents open, with a live session on a POSIX host. *)
Definition connected_world : World :=
  set_view_repl (Some {| pane_port := "/dev/ttyACM0" |})
    [ {| pane_port := "/dev/ttyACM0" |} ]
    (set_editor_repl (Some {| port := "/dev/ttyACM0" |}) editing_world).

(** Two saved scripts, both in step with their files. *)
Definition saved_world : World :=
  world_of
    {[ "/home/mu/micropython/blink.py" := "display.scroll('hi')";
       "/home/mu/micropython/count.py" := "n = 0" ]}
    [ new_EditorPane (Some "/home/mu/micropython/blink.py")
        "display.scroll('hi')";
      new_EditorPane None "";
      new_EditorPane (Some "/home/mu/micropython/count.py") "n = 0" ].

(** A host [REPL] does not know.  Its [json.load] refuses a text that does
    not open a JSON array and reads any other as the empty list. *)
Definition other_host : Host := {|
  os_name := "java";
  HOME_DIRECTORY := HOME_DIRECTORY (Host := posix_host);
  DATA_DIR := DATA_DIR (Host := posix_host);
  json_load := fun content =>
    if startswith content "[" then Return []
    else Throw (ValueError "Expecting value: line 1 column 1 (char 0)");
  json_dump := json_dump (Host := posix_host);
  uflash_RUNTIME := uflash_RUNTIME (Host := posix_host);
  hexlify := hexlify (Host := posix_host);
  embed_hex := embed_hex (Host := posix_host);
  extract_script := extract_script (Host := posix_host);
|}.

(** A device holding an image with a script embedded. *)
Definition flashed_world : World :=
  world_of {[ "/media/MICROBIT/micropython.hex" :=
                ":020000040000FA" ++ String "010" "display.scroll('hi')" ]}
    [].

(** A session file that is not JSON. *)
Definition unreadable_session_world : World :=
  initial {[ "/home/mu/.local/share/mu/tabs.json" := "not json" ]} "day".

(** * Properties *)

(** ** Strings and paths *)

Lemma endswith_refl s : endswith s s = true.
Proof. destruct s; cbn [endswith]; rewrite String.eqb_refl; reflexivity. Qed.

Lemma endswith_tail c s suffix :
  endswith s suffix = true -> endswith (String c s) suffix = true.
Proof. intros E. cbn [endswith]. rewrite E. apply orb_true_r. Qed.

Lemma endswith_app pre s : endswith (pre ++ s) s = true.
Proof.
  induction pre as [|c pre IH].
  - apply endswith_refl.
  - change (String c pre ++ s) with (String c (pre ++ s)).
    apply endswith_tail, IH.
Qed.

(** The basename is the end of the path, so a suffix of the basename is a
    suffix of the path. *)
Lemma endswith_basename p suffix :
  endswith (basename p) suffix = true -> endswith p suffix = true.
Proof.
  induction p as [|c rest IH]; cbn [basename]; [tauto|].
  destruct (has_sep rest).
  - intros E. apply endswith_tail, IH, E.
  - destruct (Ascii.eqb c "/"); [apply endswith_tail | tauto].
Qed.

Lemma with_extension_endswith p : endswith (with_extension p) ".py" = true.
Proof.
  unfold with_extension.
  destruct (endswith (basename p) ".py") eqn:E.
  - apply endswith_basename, E.
  - apply endswith_app.
Qed.

Lemma append_nonempty a c b : String.eqb (a ++ String c b) "" = false.
Proof. destruct a; reflexivity. Qed.

Lemma os_path_join_nonempty a c b :
  String.eqb (os_path_join a (String c b)) "" = false.
Proof.
  unfold os_path_join.
  destruct (startswith (String c b) "/"); [reflexivity|].
  destruct (String.eqb a "" || endswith a "/").
  - apply append_nonempty.
  - destruct a; reflexivity.
Qed.

Lemma truthy_Some p : truthy (Some p) = negb (String.eqb p "").
Proof. destruct p; reflexivity. Qed.

(** ** The editor *)

(** Unfold the monad so that a method runs on the world at hand. *)
Ltac run_monad :=
  unfold mbind, M_bind, mret, M_ret, try_except_else, call, raise, get,
    modify, read_file, write_file, os_path_exists in *.

Ltac run_window :=
  unfold Window.current_tab, Window.get_load_path, Window.get_save_path,
    Window.add_tab, Window.tab_count, Window.widgets, Window.modified,
    Window.show_message, Window.show_confirmation, Window.set_theme in *.

#[local] Arguments basename : simpl never.
#[local] Arguments endswith : simpl never.
#[local] Arguments add_tabs : simpl never.
#[local] Arguments existing : simpl never.

Section EditorFacts.
Context `{Host}.

Lemma lookup_file_empty files : lookup_file "" files = None.
Proof. reflexivity. Qed.

Lemma lookup_file_nonempty c p files :
  lookup_file (String c p) files = files !! String c p.
Proof. reflexivity. Qed.

(** C10.  A cancelled load dialog returns the empty path: it does not end
    in [.py], opening it raises [FileNotFoundError], which [load] swallows;
    [load] returns with the tabs as they were and without a message, having
    only asked for the path. *)
Theorem load_cancelled_is_silent (w : World) :
  let asked := log (GetLoadPath Editor.MICROPYTHON_DIRECTORY) w in
  endswith "" ".py" = false
  /\ read_file "" asked = Raise (FileNotFoundError "") asked
  /\ Editor.load "" w = Ok tt asked
  /\ tabs asked = tabs w
  /\ fs asked = fs w
  /\ messages asked = messages w.
Proof.
  repeat split.
  unfold messages, log; simpl.
  rewrite List.filter_app; simpl. apply app_nil_r.
Qed.

Lemma same_state_log e w : same_state w (log e w).
Proof. repeat split. Qed.

Lemma same_state_trans w1 w2 w3 :
  same_state w1 w2 -> same_state w2 w3 -> same_state w1 w3.
Proof. unfold same_state. intuition congruence. Qed.

Lemma session_file_nonempty : String.eqb Editor.SESSION_FILE "" = false.
Proof. apply os_path_join_nonempty. Qed.

(** C3.  With a modified document open and the confirmation answered with
    cancel, [quit] returns (it does not raise [SystemExit]): the session
    file and every other file, the tabs and the session are as before; the
    user has only been asked, and a close event has been ignored. *)
Theorem quit_cancelled_changes_nothing (w : World) (args : list qt_arg) :
  existsb modified (tabs w) = true ->
  let asked := log (ShowConfirmation "You have un-saved work!") w in
  let w' := match args with
            | a :: _ => if has_ignore a then log EventIgnored asked else asked
            | [] => asked
            end in
  Editor.quit args QCancel w = Ok tt w'
  /\ same_state w w'
  /\ fs w' !! Editor.SESSION_FILE = fs w !! Editor.SESSION_FILE.
Proof.
  intros Hmod asked w'.
  assert (Hsame : same_state w w').
  { subst w' asked. destruct args as [|a args]; [apply same_state_log|].
    destruct (has_ignore a); [|apply same_state_log].
    eapply same_state_trans; apply same_state_log. }
  split; [|split; [exact Hsame|]].
  - unfold Editor.quit. run_window. run_monad. cbn.
    rewrite Hmod. subst w' asked.
    destruct args as [|a args]; [reflexivity|].
    destruct (has_ignore a); reflexivity.
  - destruct Hsame as [-> _]. reflexivity.
Qed.

(** The loop of [quit] collects exactly the paths of the documents that
    have one, in tab order. *)
Lemma session_paths_persisted ws : Editor.session_paths ws = persisted ws.
Proof.
  unfold Editor.session_paths.
  enough (G : forall acc,
    fold_left (fun widgets widget =>
      if truthy (path widget)
      then (widgets ++ [default "" (path widget)])%list
      else widgets) ws acc = (acc ++ persisted ws)%list) by apply (G []).
  induction ws as [|[[[|c p]|] t m] ws IH]; intros acc; cbn.
  - symmetry. apply app_nil_r.
  - apply IH.
  - rewrite IH, <- app_assoc. reflexivity.
  - apply IH.
Qed.

Lemma elem_of_persisted p ws :
  p ∈ persisted ws <->
  exists widget, widget ∈ ws /\ path widget = Some p /\ p <> "".
Proof.
  unfold persisted. rewrite list_elem_of_omap. split.
  - intros (widget & Hin & E). exists widget. split; [exact Hin|].
    destruct (path widget) as [[|c q]|]; cbn in E; try discriminate.
    inversion E; subst. split; [reflexivity | discriminate].
  - intros (widget & Hin & E & Hne). exists widget. split; [exact Hin|].
    rewrite E. destruct p; [contradiction | reflexivity].
Qed.

(** C6.  When [quit] goes through (nothing is modified, or the user
    confirms), it ends the process after writing the session file: its
    content is the list of the paths of the open documents that have one,
    in tab order, whatever the file held before; a document without a path
    contributes nothing. *)
Theorem quit_persists_paths (w : World) (args : list qt_arg)
    (answer : button) :
  existsb modified (tabs w) = false \/ answer = QOk ->
  exists w',
    Editor.quit args answer w = Raise (SystemExit 0) w'
    /\ Editor.session_paths (tabs w) = persisted (tabs w)
    /\ fs w' = <[Editor.SESSION_FILE := json_dump (persisted (tabs w))]> (fs w)
    /\ fs w' !! Editor.SESSION_FILE = Some (json_dump (persisted (tabs w)))
    /\ (forall p, p ∈ persisted (tabs w) <->
          exists widget, widget ∈ tabs w /\ path widget = Some p /\ p <> "")
    /\ tabs w' = tabs w.
Proof.
  intros Hgo.
  assert (Hrun : exists w0, same_state w w0 /\
    Editor.quit args answer w =
      Raise (SystemExit 0)
        (set_fs (fun files =>
           <[Editor.SESSION_FILE := json_dump (persisted (tabs w))]> files)
           w0)).
  { unfold Editor.quit. run_window. run_monad. cbn.
    rewrite session_file_nonempty.
    destruct (existsb modified (tabs w)) eqn:Hmod.
    - destruct Hgo as [?| ->]; [discriminate|]. cbn.
      rewrite session_paths_persisted.
      eexists; split; [|reflexivity]. apply same_state_log.
    - cbn. rewrite session_paths_persisted.
      exists w; split; [repeat split | reflexivity]. }
  destruct Hrun as (w0 & (Hfs & _ & _ & Htabs & _) & Hrun).
  eexists; split; [exact Hrun|].
  split; [apply session_paths_persisted|].
  cbn. rewrite Hfs, Htabs.
  split; [reflexivity|].
  split; [apply lookup_insert_eq|].
  split; [intros p; apply elem_of_persisted | reflexivity].
Qed.

(** Mutating the pane at the current index shows at that index and leaves
    the other panes alone. *)
Lemma store_twice (l : list EditorPane) i a b :
  <[i := b]> (<[i := a]> l) = <[i := b]> l.
Proof. apply list_insert_insert_eq. Qed.

(** C8.  [save] on the active document [tab].  It asks the view for a path
    exactly when the document has none.  If no path comes out of that (the
    dialog was cancelled), [save] returns with no file written and the
    document left without a path.  Otherwise the path is made to end in
    [.py], the text is written to it, and the document keeps that path with
    its modified flag cleared.  No other document changes. *)
Theorem save_behaviour (w : World) (tab : EditorPane) (answer : string) :
  tabs w !! current_index w = Some tab ->
  let chosen := match path tab with Some p => p | None => answer end in
  exists w',
    Editor.save answer w = Ok tt w'
    /\ trace w' = match path tab with
                  | None =>
                      (trace w
                         ++ [GetSavePath Editor.MICROPYTHON_DIRECTORY])%list
                  | Some _ => trace w
                  end
    /\ (forall j, j <> current_index w -> tabs w' !! j = tabs w !! j)
    /\ current_index w' = current_index w
    /\ if String.eqb chosen ""
       then fs w' = fs w
            /\ tabs w' !! current_index w =
                 Some {| path := None; text := text tab;
                         modified := modified tab |}
       else endswith (with_extension chosen) ".py" = true
            /\ fs w' = <[with_extension chosen := text tab]> (fs w)
            /\ tabs w' !! current_index w =
                 Some {| path := Some (with_extension chosen);
                         text := text tab; modified := false |}.
Proof.
  intros Hcur chosen.
  assert (Hlt : current_index w < length (tabs w))
    by (eapply lookup_lt_Some, Hcur).
  unfold Editor.save, Editor.store_tab. run_window. run_monad. cbn.
  rewrite Hcur. subst chosen.
  destruct tab as [[[|c p]|] t m]; cbn.
  - eexists; split; [reflexivity|]. cbn. repeat split.
    + intros j Hj. apply list_lookup_insert_ne. congruence.
    + apply list_lookup_insert_eq, Hlt.
  - pose proof (with_extension_endswith (String c p)) as Hext.
    unfold with_extension in *.
    destruct (endswith (basename (String c p)) ".py"); cbn.
    + eexists; split; [reflexivity|]. cbn. repeat split; try assumption.
      * intros j Hj. apply list_lookup_insert_ne. congruence.
      * apply list_lookup_insert_eq, Hlt.
    + rewrite append_nonempty.
      eexists; split; [reflexivity|]. cbn. rewrite !store_twice.
      repeat split; try assumption.
      * intros j Hj. apply list_lookup_insert_ne. congruence.
      * apply list_lookup_insert_eq, Hlt.
  - destruct answer as [|c p]; cbn.
    + eexists; split; [reflexivity|]. cbn. rewrite !store_twice.
      repeat split.
      * intros j Hj. apply list_lookup_insert_ne. congruence.
      * apply list_lookup_insert_eq, Hlt.
    + pose proof (with_extension_endswith (String c p)) as Hext.
      unfold with_extension in *.
      destruct (endswith (basename (String c p)) ".py"); cbn.
      * eexists; split; [reflexivity|]. cbn. rewrite !store_twice.
        repeat split; try assumption.
        -- intros j Hj. apply list_lookup_insert_ne. congruence.
        -- apply list_lookup_insert_eq, Hlt.
      * rewrite append_nonempty.
        eexists; split; [reflexivity|]. cbn. rewrite !store_twice.
        repeat split; try assumption.
        -- intros j Hj. apply list_lookup_insert_ne. congruence.
        -- apply list_lookup_insert_eq, Hlt.
Qed.

(** *** Methods that leave the live session alone *)

Lemma keeps_ret {A} (a : A) : keeps_session (mret a).
Proof. intros w. reflexivity. Qed.

Lemma keeps_raise {A} e : keeps_session (@raise A e).
Proof. intros w. reflexivity. Qed.

Lemma keeps_get {A} (f : World -> A) : keeps_session (get f).
Proof. intros w. reflexivity. Qed.

Lemma keeps_call {A} (r : pyres A) : keeps_session (call r).
Proof. destruct r; intros w; reflexivity. Qed.

Lemma keeps_modify f :
  (forall w, repl_state (f w) = repl_state w) -> keeps_session (modify f).
Proof. intros Hf w. apply Hf. Qed.

Lemma keeps_read_file p : keeps_session (read_file p).
Proof. intros w. unfold read_file. destruct (lookup_file p (fs w)); reflexivity. Qed.

Lemma keeps_write_file p content : keeps_session (write_file p content).
Proof. intros w. unfold write_file. destruct (String.eqb p ""); reflexivity. Qed.

Lemma keeps_bind {A B} (m : M A) (f : A -> M B) :
  keeps_session m -> (forall a, keeps_session (f a)) ->
  keeps_session (m ≫= f).
Proof.
  intros Hm Hf w. unfold mbind, M_bind.
  specialize (Hm w). destruct (m w) as [a w1|e w1]; cbn in *.
  - rewrite Hf. exact Hm.
  - exact Hm.
Qed.

Lemma keeps_try {A B} (body : M A) catches (handler : exn -> M B) orelse :
  keeps_session body -> (forall e, keeps_session (handler e)) ->
  (forall a, keeps_session (orelse a)) ->
  keeps_session (try_except_else body catches handler orelse).
Proof.
  intros Hb Hh Ho w. unfold try_except_else.
  specialize (Hb w). destruct (body w) as [a w1|e w1]; cbn in *.
  - rewrite Ho. exact Hb.
  - destruct (catches e); [rewrite Hh|]; exact Hb.
Qed.

Lemma keeps_for_each {A} (l : list A) (body : A -> M unit) :
  (forall x, keeps_session (body x)) -> keeps_session (for_each l body).
Proof.
  intros Hb. induction l as [|x l IH]; cbn [for_each].
  - apply keeps_ret.
  - apply keeps_bind; [apply Hb | intros _; exact IH].
Qed.

(** Break a method down to its primitive steps. *)
Ltac frame :=
  repeat first
    [ apply keeps_ret | apply keeps_raise | apply keeps_get
    | apply keeps_call | apply keeps_read_file | apply keeps_write_file
    | apply keeps_modify; intros ?; reflexivity
    | apply keeps_bind; [|intros ?]
    | apply keeps_try; [|intros ?|intros ?]
    | apply keeps_for_each; intros ?
    | match goal with
      | |- keeps_session (match ?x with _ => _ end) => destruct x
      end ].

Lemma keeps_restore_session : keeps_session Editor.restore_session.
Proof.
  unfold Editor.restore_session, os_path_exists. run_window. frame.
Qed.

Lemma keeps_flash find : keeps_session (Editor.flash find).
Proof. unfold Editor.flash, Editor.save_hex. run_window. frame. Qed.

Lemma keeps_load answer : keeps_session (Editor.load answer).
Proof. unfold Editor.load. run_window. frame. Qed.

Lemma keeps_save answer : keeps_session (Editor.save answer).
Proof. unfold Editor.save, Editor.store_tab. run_window. frame. Qed.

Lemma keeps_quit args answer : keeps_session (Editor.quit args answer).
Proof. unfold Editor.quit. run_window. frame. Qed.

Lemma keeps_toggle_theme : keeps_session Editor.toggle_theme.
Proof. unfold Editor.toggle_theme. run_window. frame. Qed.

Lemma keeps_new : keeps_session Editor.new.
Proof. unfold Editor.new. run_window. frame. Qed.

(** *** Opening and closing the live session *)

Lemma session_invariant_repl_state w w' :
  repl_state w' = repl_state w -> session_invariant w ->
  session_invariant w'.
Proof.
  unfold repl_state, session_invariant. intros E.
  injection E as -> -> ->. tauto.
Qed.

Lemma add_repl_already_open w find opened :
  is_Some (editor_repl w) ->
  Editor.add_repl find opened w = Raise (RuntimeError "REPL already running") w.
Proof.
  intros [r Hr]. unfold Editor.add_repl. run_monad. cbn.
  rewrite Hr. reflexivity.
Qed.

Lemma remove_repl_not_open w :
  editor_repl w = None ->
  Editor.remove_repl w = Raise (RuntimeError "REPL not running") w.
Proof.
  intros Hr. unfold Editor.remove_repl. run_monad. cbn.
  rewrite Hr. reflexivity.
Qed.

Lemma unparent_only pane : Window.unparent pane [pane] = [].
Proof. cbn. rewrite String.eqb_refl. reflexivity. Qed.

Lemma add_repl_invariant w find opened :
  session_invariant w ->
  session_invariant (final (Editor.add_repl find opened w)).
Proof.
  intros Hinv.
  destruct (editor_repl w) as [r|] eqn:Hr.
  { rewrite add_repl_already_open by (rewrite Hr; eauto). exact Hinv. }
  assert (Hnone : splitter w = [] /\ view_repl w = None).
  { destruct Hinv as [?|(pane & _ & _ & [r Hsome])]; [assumption|].
    congruence. }
  destruct Hnone as [Hsplit Hview].
  unfold Editor.add_repl, Editor.new_REPL, Window.add_repl.
  run_window. run_monad. cbn. rewrite Hr.
  destruct find as [[[|c mb]|]|e]; cbn; try exact Hinv.
  destruct (String.eqb os_name "posix"); cbn.
  - destruct opened as [e|]; cbn.
    + destruct (is_IOError e); cbn; left; auto.
    + right. rewrite Hsplit. eexists; repeat split; eauto.
  - destruct (String.eqb os_name "nt"); cbn; [|exact Hinv].
    destruct opened as [e|]; cbn.
    + destruct (is_IOError e); cbn; left; auto.
    + right. rewrite Hsplit. eexists; repeat split; eauto.
Qed.

Lemma remove_repl_invariant w :
  session_invariant w -> session_invariant (final (Editor.remove_repl w)).
Proof.
  intros Hinv.
  destruct (editor_repl w) as [r|] eqn:Hr.
  2:{ rewrite remove_repl_not_open by exact Hr. exact Hinv. }
  unfold Editor.remove_repl, Window.remove_repl. run_monad. cbn.
  rewrite Hr.
  destruct Hinv as [[Hsplit Hview]|(pane & Hsplit & Hview & _)];
    rewrite Hview; cbn.
  - left. auto.
  - left. rewrite Hsplit, unparent_only. auto.
Qed.

Lemma toggle_repl_invariant w find opened :
  session_invariant w ->
  session_invariant (final (Editor.toggle_repl find opened w)).
Proof.
  intros Hinv. unfold Editor.toggle_repl.
  unfold mbind at 1, M_bind at 1, get at 1.
  destruct (editor_repl w).
  - apply remove_repl_invariant, Hinv.
  - apply add_repl_invariant, Hinv.
Qed.

Lemma run_op_invariant o w :
  session_invariant w -> session_invariant (final (run_op o w)).
Proof.
  intros Hinv.
  destruct o; cbn [run_op];
    try (eapply session_invariant_repl_state; [|exact Hinv];
         first [ apply keeps_restore_session | apply keeps_flash
               | apply keeps_toggle_theme | apply keeps_new
               | apply keeps_load | apply keeps_save | apply keeps_quit
               | reflexivity ]).
  - apply add_repl_invariant, Hinv.
  - apply remove_repl_invariant, Hinv.
  - apply toggle_repl_invariant, Hinv.
Qed.

Lemma reachable_invariant w : reachable w -> session_invariant w.
Proof.
  induction 1 as [files theme|w o _ IH].
  - left. split; reflexivity.
  - apply run_op_invariant, IH.
Qed.

(** C2.  While the editor holds a live session, [add_repl] fails with
    "REPL already running"; in particular, after an [add_repl] that
    connected (a device was found on a supported host and its port
    opened), any second [add_repl] fails so.  Without a session,
    [remove_repl] fails with "REPL not running".  In every world the
    application can reach there is at most one live session. *)
Theorem single_live_session :
  (forall w find opened,
      is_Some (editor_repl w) ->
      Editor.add_repl find opened w
      = Raise (RuntimeError "REPL already running") w)
  /\ (forall w c mb find opened,
        editor_repl w = None ->
        String.eqb os_name "posix" || String.eqb os_name "nt" = true ->
        exists w1,
          Editor.add_repl (Return (Some (String c mb))) None w = Ok tt w1
          /\ is_Some (editor_repl w1)
          /\ Editor.add_repl find opened w1
             = Raise (RuntimeError "REPL already running") w1)
  /\ (forall w,
        editor_repl w = None ->
        Editor.remove_repl w = Raise (RuntimeError "REPL not running") w)
  /\ (forall w, reachable w -> live_sessions w <= 1).
Proof.
  split; [exact add_repl_already_open|].
  split; [|split; [exact remove_repl_not_open|]].
  - intros w c mb find opened Hr Hos.
    assert (Hrun : exists w1,
      Editor.add_repl (Return (Some (String c mb))) None w = Ok tt w1
      /\ is_Some (editor_repl w1)).
    { unfold Editor.add_repl, Editor.new_REPL, Window.add_repl.
      run_window. run_monad. cbn. rewrite Hr. cbn.
      destruct (String.eqb os_name "posix"); cbn.
      - eexists; split; [reflexivity|]. cbn. eauto.
      - cbn in Hos. rewrite Hos. cbn.
        eexists; split; [reflexivity|]. cbn. eauto. }
    destruct Hrun as (w1 & Hrun & Hsome).
    exists w1. repeat split; try assumption.
    apply add_repl_already_open, Hsome.
  - intros w Hreach. unfold live_sessions.
    destruct (reachable_invariant w Hreach)
      as [[-> _]|(pane & -> & _)]; cbn; lia.
Qed.

(** *** Restoring the session *)

Lemma add_tabs_tabs docs w : tabs (add_tabs docs w) = (tabs w ++ docs)%list.
Proof.
  unfold add_tabs.
  revert w. induction docs as [|d docs IH]; intros w; cbn.
  - symmetry. apply app_nil_r.
  - rewrite IH. cbn. rewrite <- app_assoc. reflexivity.
Qed.

Lemma add_tabs_same docs w :
  fs (add_tabs docs w) = fs w /\ trace (add_tabs docs w) = trace w
  /\ repl_state (add_tabs docs w) = repl_state w.
Proof.
  unfold add_tabs.
  revert w. induction docs as [|d docs IH]; intros w; cbn.
  - repeat split.
  - destruct (IH (set_tabs (tabs w ++ [d]) (length (tabs w)) w))
      as (-> & -> & ->).
    repeat split.
Qed.

Lemma existing_cons files p session :
  existing files (p :: session) =
    match lookup_file p files with
    | Some t => new_EditorPane (Some p) t :: existing files session
    | None => existing files session
    end.
Proof. unfold existing. cbn. destruct (lookup_file p files); reflexivity. Qed.

Lemma restore_loop_run session w :
  restore_loop session w = Ok tt (add_tabs (existing (fs w) session) w).
Proof.
  revert w. induction session as [|p session IH]; intros w.
  - reflexivity.
  - unfold restore_loop in *. cbn [for_each].
    unfold mbind at 1, M_bind at 1, try_except_else at 1, read_file at 1.
    rewrite existing_cons.
    destruct (lookup_file p (fs w)) as [t|]; cbn.
    + rewrite IH. reflexivity.
    + apply IH.
Qed.

(** The restored documents are those of the listed paths that exist, in
    the order of the list, each with the content of its file. *)
Lemma existing_paths files session :
  omap path (existing files session)
  = List.filter (file_exists files) session.
Proof.
  unfold existing, file_exists.
  induction session as [|p session IH]; cbn; [reflexivity|].
  destruct (lookup_file p files); cbn; rewrite IH; reflexivity.
Qed.

Lemma existing_content files session :
  Forall (fun d => exists p, path d = Some p
                   /\ lookup_file p files = Some (text d)
                   /\ modified d = false)
         (existing files session).
Proof.
  unfold existing.
  induction session as [|p session IH]; cbn; [constructor|].
  destruct (lookup_file p files) as [t|] eqn:E; cbn; [|exact IH].
  constructor; [|exact IH]. exists p. cbn. auto.
Qed.

Lemma existing_all_missing files session :
  Forall (fun p => lookup_file p files = None) session ->
  existing files session = [].
Proof.
  unfold existing. induction 1 as [|p session Hp _ IH]; cbn; [reflexivity|].
  rewrite Hp. exact IH.
Qed.

(** [restore_session] when the session file holds the list [session]. *)
Lemma restore_session_run w content session :
  lookup_file Editor.SESSION_FILE (fs w) = Some content ->
  json_load content = Return session ->
  Editor.restore_session w =
    let w1 := add_tabs (existing (fs w) session) w in
    match tabs w1 with
    | [] => Ok tt (set_tabs (tabs w1 ++ [new_EditorPane None Editor.py])
                     (length (tabs w1)) w1)
    | _ :: _ => Ok tt w1
    end.
Proof.
  intros Hfile Hjson.
  pose proof (restore_loop_run session w) as Hloop.
  unfold restore_loop in Hloop.
  unfold Editor.restore_session, os_path_exists, Window.tab_count, get.
  set (body := fun tab : string => try_except_else _ _ _ _) in *.
  unfold mbind, M_bind, read_file. rewrite Hfile. cbn.
  rewrite ?Hfile, Hjson. cbn.
  destruct session as [|p session].
  - change (add_tabs (existing (fs w) []) w) with w.
    cbn. unfold Window.add_tab, modify, mret, M_ret.
    destruct (tabs w) eqn:E; cbn; rewrite ?E; reflexivity.
  - rewrite Hloop.
    unfold Window.add_tab, modify, mret, M_ret.
    destruct (tabs (add_tabs (existing (fs w) (p :: session)) w)) eqn:E;
      cbn; rewrite ?E; reflexivity.
Qed.

(** [restore_session] when there is no session file. *)
Lemma restore_session_absent w :
  lookup_file Editor.SESSION_FILE (fs w) = None ->
  Editor.restore_session w =
    match tabs w with
    | [] => Ok tt (set_tabs (tabs w ++ [new_EditorPane None Editor.py])
                     (length (tabs w)) w)
    | _ :: _ => Ok tt w
    end.
Proof.
  intros Hfile.
  unfold Editor.restore_session, os_path_exists, Window.tab_count, get.
  set (body := fun tab : string => try_except_else _ _ _ _) in *.
  unfold mbind, M_bind. rewrite Hfile. cbn.
  unfold Window.add_tab, modify, mret, M_ret.
  destruct (tabs w) eqn:E; cbn; rewrite ?E; reflexivity.
Qed.

(** C4.  When the session file holds the list [session], [restore_session]
    returns without an error and without a message.  The documents it
    restores are those of the listed paths whose file exists: their paths
    are the listed ones with the missing ones dropped, in the order of the
    list, and each has the content of its file.  They follow the tabs
    already open; the files are untouched. *)
Theorem restore_drops_missing (w : World) (content : string)
    (session : list string) :
  lookup_file Editor.SESSION_FILE (fs w) = Some content ->
  json_load content = Return session ->
  let docs := existing (fs w) session in
  exists w',
    Editor.restore_session w = Ok tt w'
    /\ fs w' = fs w
    /\ trace w' = trace w
    /\ tabs w' = match (tabs w ++ docs)%list with
                 | [] => [new_EditorPane None Editor.py]
                 | ts => ts
                 end
    /\ omap path docs = List.filter (file_exists (fs w)) session
    /\ Forall (fun d => exists p, path d = Some p
                         /\ lookup_file p (fs w) = Some (text d)
                         /\ modified d = false) docs.
Proof.
  intros Hfile Hjson docs.
  rewrite (restore_session_run w content session Hfile Hjson).
  fold docs. cbv zeta.
  pose proof (add_tabs_tabs docs w) as Htabs.
  destruct (add_tabs_same docs w) as (Hfs & Htrace & _).
  destruct (tabs (add_tabs docs w)) as [|d ts] eqn:E;
    (eexists; split; [reflexivity|]); cbn; rewrite <- Htabs;
    repeat split; try assumption;
    try apply existing_paths; try apply existing_content.
Qed.

(** C5.  At start-up (no tab is open yet), when restoring produces no
    document, because there is no session file, or its list is empty, or
    every listed file is missing, [restore_session] creates exactly one
    document: it has no path and holds the placeholder script. *)
Theorem restore_creates_default (w : World) :
  tabs w = [] ->
  lookup_file Editor.SESSION_FILE (fs w) = None
  \/ (exists content session,
        lookup_file Editor.SESSION_FILE (fs w) = Some content
        /\ json_load content = Return session
        /\ Forall (fun p => lookup_file p (fs w) = None) session) ->
  exists w',
    Editor.restore_session w = Ok tt w'
    /\ tabs w' = [ {| path := None;
                      text := "from microbit import *"
                              ++ String "010" (String "010"
                                   "# Write code here :-)");
                      modified := false |} ]
    /\ fs w' = fs w
    /\ trace w' = trace w.
Proof.
  intros Hstart [Habsent|(content & session & Hfile & Hjson & Hmissing)].
  - rewrite (restore_session_absent w Habsent), Hstart.
    eexists; split; [reflexivity|]. repeat split.
  - rewrite (restore_session_run w content session Hfile Hjson).
    rewrite (existing_all_missing _ _ Hmissing).
    change (add_tabs [] w) with w. cbv zeta. rewrite Hstart.
    eexists; split; [reflexivity|]. repeat split.
Qed.

(** *** Flashing *)

Lemma messages_log_message w m i c :
  messages (log (ShowMessage m i c) w)
  = (messages w ++ [ShowMessage m i c])%list.
Proof. unfold messages, log; cbn. apply List.filter_app. Qed.

Lemma messages_log_other w e :
  is_message e = false -> messages (log e w) = messages w.
Proof.
  intros He. unfold messages, log; cbn.
  rewrite List.filter_app; cbn. rewrite He. apply app_nil_r.
Qed.

(** C7, as the code has it.  With an active document and no mass-storage
    device, [flash] writes no file, however it ends.  It shows the "not
    found" message when the encoder accepts the script; when the encoder
    rejects it (a script over capacity), [flash] fails with the encoder's
    error before the device is looked for, and shows nothing. *)
Theorem flash_without_device (w : World) (tab : EditorPane) :
  tabs w !! current_index w = Some tab ->
  (forall hex image,
      hexlify (text tab) = Return hex ->
      embed_hex uflash_RUNTIME hex = Return image ->
      Editor.flash (Return None) w
      = Ok tt (log (ShowMessage "Could not find an attached BBC micro:bit."
                      None None) w))
  /\ (forall e, hexlify (text tab) = Throw e ->
                Editor.flash (Return None) w = Raise e w)
  /\ (forall hex e,
        hexlify (text tab) = Return hex ->
        embed_hex uflash_RUNTIME hex = Throw e ->
        Editor.flash (Return None) w = Raise e w)
  /\ fs (final (Editor.flash (Return None) w)) = fs w.
Proof.
  intros Hcur.
  unfold Editor.flash. run_window. run_monad. cbn. rewrite Hcur.
  destruct (hexlify (text tab)) as [hex|e] eqn:Ehex; cbn;
    [destruct (embed_hex uflash_RUNTIME hex) as [image|e] eqn:Eimg; cbn|];
    repeat split; intros; first [reflexivity | congruence].
Qed.

(** *** Loading *)

(** C9, as the code has it.  [load] on a file that is not a script shows no
    message, whatever the extractor does.  What the extractor raises
    ([NoScriptFound] for an image without a script) leaves [load] uncaught,
    and no tab is added; what it returns becomes the text of a new
    untitled document. *)
Theorem load_image_reports_nothing (w : World) (p content : string) :
  endswith p ".py" = false ->
  lookup_file p (fs w) = Some content ->
  let asked := log (GetLoadPath Editor.MICROPYTHON_DIRECTORY) w in
  (forall e, extract_script content = Throw e ->
             is_FileNotFoundError e = false ->
             Editor.load p w = Raise e asked)
  /\ (forall t, extract_script content = Return t ->
                Editor.load p w
                = Ok tt (set_tabs (tabs w ++ [new_EditorPane None t])
                           (length (tabs w)) asked))
  /\ messages (final (Editor.load p w)) = messages w
  /\ tabs asked = tabs w.
Proof.
  intros Hpy Hfile asked.
  unfold Editor.load. run_window. run_monad. cbn.
  rewrite Hpy. cbn. rewrite Hfile. cbn.
  destruct (extract_script content) as [t|e] eqn:Eext; cbn;
    [|destruct (is_FileNotFoundError e) eqn:He; cbn];
    repeat split; intros; subst asked; simplify_eq;
    first [ reflexivity | congruence
          | apply messages_log_other; reflexivity ].
Qed.

End EditorFacts.

(** ** The editor on the sample host *)

Lemma single_live_session_witness :
  editor_repl (initial ∅ "day") = None
  /\ (exists w1,
        Editor.add_repl (H := posix_host) (Return (Some "ttyACM0")) None
          (initial ∅ "day") = Ok tt w1
        /\ is_Some (editor_repl w1)
        /\ Editor.add_repl (H := posix_host) (Return (Some "ttyACM0")) None w1
           = Raise (RuntimeError "REPL already running") w1)
  /\ Editor.remove_repl (initial ∅ "day")
     = Raise (RuntimeError "REPL not running") (initial ∅ "day").
Proof.
  destruct (single_live_session (H := posix_host))
    as (_ & Hsecond & Hclose & _).
  split; [reflexivity|]. split.
  - apply (Hsecond (initial ∅ "day") "t"%char "tyACM0");
      reflexivity.
  - apply Hclose. reflexivity.
Defined.

Lemma quit_cancelled_witness :
  existsb modified (tabs editing_world) = true
  /\ Editor.quit (H := posix_host) [QCloseEvent] QCancel editing_world
     = Ok tt (log EventIgnored
                (log (ShowConfirmation "You have un-saved work!")
                   editing_world)).
Proof.
  split; [reflexivity|].
  apply (quit_cancelled_changes_nothing (H := posix_host) editing_world
           [QCloseEvent]).
  reflexivity.
Defined.

Lemma quit_persists_witness :
  exists w',
    Editor.quit (H := posix_host) [] QOk editing_world
    = Raise (SystemExit 0) w'
    /\ fs w' !! "/home/mu/.local/share/mu/tabs.json"
       = Some "/home/mu/micropython/blink.py".
Proof.
  destruct (quit_persists_paths (H := posix_host) editing_world [] QOk)
    as (w' & Hrun & _ & _ & Hfile & _).
  - right. reflexivity.
  - exists w'. split; [exact Hrun | exact Hfile].
Defined.

Lemma save_behaviour_witness :
  exists w',
    Editor.save (H := posix_host) "/home/mu/micropython/hello" untitled_world
    = Ok tt w'
    /\ fs w' !! "/home/mu/micropython/hello.py" = Some "display.scroll('hi')"
    /\ tabs w' !! 0
       = Some {| path := Some "/home/mu/micropython/hello.py";
                 text := "display.scroll('hi')"; modified := false |}.
Proof.
  destruct (save_behaviour (H := posix_host) untitled_world
              {| path := None; text := "display.scroll('hi')";
                 modified := true |}
              "/home/mu/micropython/hello")
    as (w' & Hrun & _ & _ & _ & _ & Hfs & Htab).
  - reflexivity.
  - exists w'. split; [exact Hrun|]. split; [|exact Htab].
    rewrite Hfs. reflexivity.
Defined.

Lemma restore_drops_missing_witness :
  exists w',
    Editor.restore_session (H := posix_host) stale_session_world = Ok tt w'
    /\ tabs w' = [ new_EditorPane (Some "/a.py") "A";
                   new_EditorPane (Some "/c.py") "C" ].
Proof.
  destruct (restore_drops_missing (H := posix_host) stale_session_world
              ("/a.py" ++ String "010" ("/b.py" ++ String "010" "/c.py"))
              ["/a.py"; "/b.py"; "/c.py"])
    as (w' & Hrun & _ & _ & Htabs & _).
  - reflexivity.
  - reflexivity.
  - exists w'. split; [exact Hrun|]. rewrite Htabs. reflexivity.
Defined.

Lemma restore_creates_default_witness :
  exists w',
    Editor.restore_session (H := posix_host) (initial ∅ "day") = Ok tt w'
    /\ tabs w' = [new_EditorPane None
                    ("from microbit import *"
                       ++ String "010" (String "010" "# Write code here :-)"))].
Proof.
  destruct (restore_creates_default (H := posix_host) (initial ∅ "day"))
    as (w' & Hrun & Htabs & _).
  - reflexivity.
  - left. reflexivity.
  - exists w'. split; [exact Hrun | exact Htabs].
Defined.

Lemma flash_without_device_witness :
  Editor.flash (H := posix_host) (Return None) untitled_world
  = Ok tt (log (ShowMessage "Could not find an attached BBC micro:bit."
                  None None) untitled_world).
Proof.
  destruct (flash_without_device (H := posix_host) untitled_world
              {| path := None; text := "display.scroll('hi')";
                 modified := true |} eq_refl)
    as (Hfound & _).
  apply (Hfound "display.scroll('hi')"
           (":020000040000FA" ++ String "010" "display.scroll('hi')"));
    reflexivity.
Defined.

(** C7 fails as stated: the script of [oversized_world] is over the capacity
    of the encoder, so [flash] raises [ScriptTooLarge] instead of returning
    with the "not found" message. *)
Lemma flash_no_device_counterexample :
  ~ flash_no_device_claim (H := posix_host) oversized_world.
Proof.
  intros Hclaim.
  destruct Hclaim as (w' & Hrun & _).
  - eexists. reflexivity.
  - assert (Hraise : Editor.flash (H := posix_host) (Return None)
                       oversized_world = Raise ScriptTooLarge oversized_world)
      by (vm_compute; reflexivity).
    rewrite Hraise in Hrun. discriminate Hrun.
Qed.

Lemma load_image_reports_nothing_witness :
  Editor.load (H := posix_host) "/media/MICROBIT/micropython.hex"
    bare_image_world
  = Raise NoScriptFound
      (log (GetLoadPath "/home/mu/micropython") bare_image_world).
Proof.
  destruct (load_image_reports_nothing (H := posix_host) bare_image_world
              "/media/MICROBIT/micropython.hex"
              (":020000040000FA" ++ String "010" "") eq_refl eq_refl)
    as (Hraise & _).
  apply (Hraise NoScriptFound); reflexivity.
Defined.

(** C9 fails as stated: on [bare_image_world] the extractor finds no script
    in the image, and [load] ends without having shown a message. *)
Lemma load_no_script_counterexample :
  ~ load_no_script_claim (H := posix_host) bare_image_world
      "/media/MICROBIT/micropython.hex".
Proof.
  intros Hclaim.
  destruct (Hclaim (":020000040000FA" ++ String "010" "")
              eq_refl eq_refl eq_refl) as [Hshown _].
  apply Hshown. reflexivity.
Qed.

(** ** The image encoder *)

Section ImageEncoderFacts.
Import ImageEncoder.
Local Open Scope nat_scope.
Local Open Scope list_scope.

Variable fmt : Format.

(** The pieces of a script, put together again, are the script. *)
Lemma concat_chunks fuel size (s : bytes) : concat (chunks fuel size s) = s.
Proof.
  revert s. induction fuel as [|fuel IH]; intros s; cbn.
  - apply app_nil_r.
  - destruct (length s <=? size); cbn.
    + apply app_nil_r.
    + rewrite IH. apply take_drop.
Qed.

Lemma chunks_nonempty fuel size (s : bytes) : chunks fuel size s <> [].
Proof. destruct fuel; cbn; [|destruct (length s <=? size)]; discriminate. Qed.

(** A script takes one record per [size] bytes, and one for the rest. *)
Lemma length_chunks fuel size (s : bytes) :
  0 < size -> length s <= fuel ->
  length (chunks fuel size s) <= length s / size + 1.
Proof.
  intros Hsize. revert s.
  induction fuel as [|fuel IH]; intros s Hfuel; cbn; [lia|].
  destruct (Nat.leb_spec (length s) size) as [Hle|Hgt]; cbn; [lia|].
  specialize (IH (drop size s)). rewrite length_drop in IH.
  assert (Hdiv : length s / size = (length s - size) / size + 1).
  { replace (length s) with ((length s - size) + 1 * size) at 1 by lia.
    apply Nat.div_add. lia. }
  rewrite Hdiv. specialize (IH ltac:(lia)). lia.
Qed.

(** No piece exceeds the payload left next to the marker. *)
Lemma chunks_bounded fuel size (s : bytes) :
  0 < size -> length s <= fuel ->
  Forall (fun c => length c <= size) (chunks fuel size s).
Proof.
  intros Hsize. revert s.
  induction fuel as [|fuel IH]; intros s Hfuel; cbn.
  - constructor; [lia | constructor].
  - destruct (Nat.leb_spec (length s) size) as [Hle|Hgt].
    + constructor; [exact Hle | constructor].
    + constructor.
      * rewrite length_take. lia.
      * apply IH. rewrite length_drop. lia.
Qed.

Lemma has_prefix_app (m c : bytes) : has_prefix m (m ++ c) = true.
Proof.
  induction m as [|a m IH]; cbn; [reflexivity|].
  rewrite IH, Byte.byte_dec_lb by reflexivity. reflexivity.
Qed.

Lemma valid_mk_record addr data : valid (mk_record addr data) = true.
Proof. apply N.eqb_refl. Qed.

(** The records of a script are script records: inside the appended range,
    bearing the marker, with a correct checksum. *)
Lemma filter_records_from k (pieces : list bytes) :
  0 < MAX_PAYLOAD fmt ->
  k + length pieces <= max_records fmt ->
  filter (fun r => is_script_record fmt r = true)
    (records_from fmt
       (SCRIPT_ADDR fmt + N.of_nat (k * MAX_PAYLOAD fmt))%N pieces)
  = records_from fmt
      (SCRIPT_ADDR fmt + N.of_nat (k * MAX_PAYLOAD fmt))%N pieces.
Proof.
  intros Hpos. revert k.
  induction pieces as [|c pieces IH]; intros k Hk; cbn [records_from length] in *.
  - reflexivity.
  - replace (SCRIPT_ADDR fmt + N.of_nat (k * MAX_PAYLOAD fmt)
             + N.of_nat (MAX_PAYLOAD fmt))%N
      with (SCRIPT_ADDR fmt + N.of_nat (S k * MAX_PAYLOAD fmt))%N
      by (cbn [Nat.mul]; lia).
    rewrite filter_cons_True.
    + rewrite IH by lia. reflexivity.
    + unfold is_script_record. cbn [address payload mk_record].
      rewrite has_prefix_app, valid_mk_record, !andb_true_r.
      unfold in_region. apply andb_true_intro. split.
      * apply N.leb_le. lia.
      * apply N.ltb_lt.
        assert (k * MAX_PAYLOAD fmt < max_records fmt * MAX_PAYLOAD fmt)
          by (apply Nat.mul_lt_mono_pos_r; lia).
        lia.
Qed.

(** Consecutive addresses are already in address order. *)
Lemma sort_records_from addr (pieces : list bytes) :
  sort_by_address (records_from fmt addr pieces)
  = records_from fmt addr pieces.
Proof.
  revert addr. induction pieces as [|c pieces IH]; intros addr.
  - reflexivity.
  - cbn [records_from]. unfold sort_by_address in *. cbn [fold_right].
    rewrite IH. destruct pieces as [|c' pieces]; cbn; [reflexivity|].
    destruct (N.leb_spec addr (addr + N.of_nat (MAX_PAYLOAD fmt)));
      [reflexivity | lia].
Qed.

Lemma decode_records_from addr (pieces : list bytes) :
  concat (map (decode fmt) (records_from fmt addr pieces)) = concat pieces.
Proof.
  revert addr. induction pieces as [|c pieces IH]; intros addr; cbn.
  - reflexivity.
  - rewrite IH. unfold decode. cbn. rewrite drop_app_length. reflexivity.
Qed.

Lemma own_records_closed (rs : list record) :
  own_records (map Data rs ++ [EndOfData]) = rs.
Proof. induction rs as [|r rs IH]; cbn; [|rewrite IH]; reflexivity. Qed.

(** C1.  For a record format with room for the marker in a record, a base
    image without a script and a script within capacity, [embed] succeeds
    and [extract] on the image it produces yields the script again. *)
Theorem extract_embed_round_trip (base : image) (script : bytes) :
  length (MARKER fmt) < MAX_PAYLOAD fmt ->
  extract fmt base = Throw NoScriptFound ->
  length script <= CAPACITY fmt ->
  exists img,
    embed fmt base script = Return img
    /\ extract fmt img = Return script.
Proof.
  intros Hmarker Hbase Hcap.
  assert (Hclean : filter (fun r => is_script_record fmt r = true)
                     (own_records base) = []).
  { unfold extract in Hbase.
    destruct (filter _ (own_records base)); [reflexivity | discriminate]. }
  unfold embed.
  destruct (Nat.ltb_spec (CAPACITY fmt) (length script)) as [Hover|_];
    [lia|].
  eexists; split; [reflexivity|].
  unfold extract. rewrite own_records_closed, filter_app, Hclean.
  cbn [app]. unfold script_records.
  pose proof (filter_records_from 0
                (chunks (length script) (data_per_record fmt) script)) as Hf.
  cbn [Nat.mul] in Hf. rewrite N.add_0_r in Hf.
  rewrite Hf.
  - pose proof (chunks_nonempty (length script) (data_per_record fmt)
                  script) as Hne.
    pose proof (concat_chunks (length script) (data_per_record fmt)
                  script) as Hcat.
    set (pieces := chunks (length script) (data_per_record fmt) script) in *.
    destruct (records_from fmt (SCRIPT_ADDR fmt) pieces) as [|r rs] eqn:E.
    + destruct pieces; [contradiction | discriminate E].
    + rewrite <- E, sort_records_from, decode_records_from, Hcat.
      reflexivity.
  - lia.
  - unfold max_records, data_per_record in *.
    pose proof (length_chunks (length script)
                  (MAX_PAYLOAD fmt - length (MARKER fmt)) script
                  ltac:(lia) ltac:(lia)) as Hlen.
    pose proof (Nat.Div0.div_le_mono (length script) (CAPACITY fmt)
                  (MAX_PAYLOAD fmt - length (MARKER fmt)) Hcap).
    lia.
Qed.

End ImageEncoderFacts.

Lemma extract_embed_round_trip_witness :
  exists img,
    ImageEncoder.embed sample_format sample_runtime sample_script = Return img
    /\ ImageEncoder.extract sample_format img = Return sample_script.
Proof.
  apply (extract_embed_round_trip sample_format sample_runtime sample_script).
  - vm_compute. lia.
  - vm_compute. reflexivity.
  - vm_compute. lia.
Defined.

(** * More about the editor *)

#[local] Arguments with_extension : simpl never.
#[local] Arguments os_path_join : simpl never.

(** ** Aspects a method leaves alone *)

Section Preserves.
Context {B : Type} (aspect : World -> B).

Lemma preserves_ret {A} (a : A) : preserves aspect (mret a).
Proof. intros w. reflexivity. Qed.

Lemma preserves_raise {A} e : preserves aspect (@raise A e).
Proof. intros w. reflexivity. Qed.

Lemma preserves_get {A} (f : World -> A) : preserves aspect (get f).
Proof. intros w. reflexivity. Qed.

Lemma preserves_call {A} (r : pyres A) : preserves aspect (call r).
Proof. destruct r; intros w; reflexivity. Qed.

Lemma preserves_modify f :
  (forall w, aspect (f w) = aspect w) -> preserves aspect (modify f).
Proof. intros Hf w. apply Hf. Qed.

Lemma preserves_read_file p : preserves aspect (read_file p).
Proof.
  intros w. unfold read_file. destruct (lookup_file p (fs w)); reflexivity.
Qed.

Lemma preserves_bind {A C} (m : M A) (f : A -> M C) :
  preserves aspect m -> (forall a, preserves aspect (f a)) ->
  preserves aspect (m ≫= f).
Proof.
  intros Hm Hf w. unfold mbind, M_bind.
  specialize (Hm w). destruct (m w) as [a w1|e w1]; cbn in *.
  - rewrite Hf. exact Hm.
  - exact Hm.
Qed.

Lemma preserves_try {A C} (body : M A) catches (handler : exn -> M C)
    orelse :
  preserves aspect body -> (forall e, preserves aspect (handler e)) ->
  (forall a, preserves aspect (orelse a)) ->
  preserves aspect (try_except_else body catches handler orelse).
Proof.
  intros Hb Hh Ho w. unfold try_except_else.
  specialize (Hb w). destruct (body w) as [a w1|e w1]; cbn in *.
  - rewrite Ho. exact Hb.
  - destruct (catches e); [rewrite Hh|]; exact Hb.
Qed.

Lemma preserves_for_each {A} (l : list A) (body : A -> M unit) :
  (forall x, preserves aspect (body x)) -> preserves aspect (for_each l body).
Proof.
  intros Hb. induction l as [|x l IH]; cbn [for_each].
  - apply preserves_ret.
  - apply preserves_bind; [apply Hb | intros _; exact IH].
Qed.

End Preserves.

(** Break a method down to its primitive steps; what is left are the writes
    to the aspect at hand. *)
Ltac preserve :=
  repeat first
    [ apply preserves_ret | apply preserves_raise | apply preserves_get
    | apply preserves_call | apply preserves_read_file
    | apply preserves_modify; intros ?; reflexivity
    | apply preserves_bind; [|intros ?]
    | apply preserves_try; [|intros ?|intros ?]
    | apply preserves_for_each; intros ?
    | match goal with
      | |- preserves _ (match ?x with _ => _ end) => destruct x
      end ].

(** ** Files a method may write *)

Section WritesOnly.
Context (allowed : string -> Prop).

Lemma writes_only_preserves {A} (c : M A) :
  preserves fs c -> writes_only allowed c.
Proof. intros Hc w p _. rewrite Hc. reflexivity. Qed.

Lemma writes_only_write_file p content :
  allowed p -> writes_only allowed (write_file p content).
Proof.
  intros Hp w q Hq. unfold write_file.
  destruct (String.eqb p ""); [reflexivity|]. cbn.
  apply lookup_insert_ne. intros ->. contradiction.
Qed.

Lemma writes_only_bind {A C} (m : M A) (f : A -> M C) :
  writes_only allowed m -> (forall a, writes_only allowed (f a)) ->
  writes_only allowed (m ≫= f).
Proof.
  intros Hm Hf w p Hp. unfold mbind, M_bind.
  specialize (Hm w p Hp). destruct (m w) as [a w1|e w1]; cbn in *.
  - rewrite (Hf a w1 p Hp). exact Hm.
  - exact Hm.
Qed.

End WritesOnly.

(** ** More about paths *)

Lemma endswith_cons c s suffix :
  endswith (String c s) suffix
  = String.eqb (String c s) suffix || endswith s suffix.
Proof. reflexivity. Qed.

Lemma basename_cons c rest :
  basename (String c rest)
  = if has_sep rest then basename rest
    else if Ascii.eqb c "/" then rest else String c rest.
Proof. reflexivity. Qed.

Lemma has_sep_app a b : has_sep (a ++ b) = has_sep a || has_sep b.
Proof.
  induction a as [|c a IH]; [reflexivity|].
  change (String c a ++ b) with (String c (a ++ b)).
  cbn [has_sep]. rewrite IH. apply orb_assoc.
Qed.

Lemma basename_no_sep s : has_sep s = false -> basename s = s.
Proof.
  destruct s as [|c s]; [reflexivity|]. cbn [has_sep]. intros Hsep.
  apply orb_false_elim in Hsep as [Hc Hs].
  rewrite basename_cons, Hs, Hc. reflexivity.
Qed.

(** Appending a name without separator to a path appends it to the
    basename. *)
Lemma basename_app p s :
  has_sep s = false -> basename (p ++ s) = basename p ++ s.
Proof.
  intros Hs. induction p as [|c p IH].
  - apply basename_no_sep, Hs.
  - change (String c p ++ s) with (String c (p ++ s)).
    rewrite !basename_cons, has_sep_app, Hs, orb_false_r.
    destruct (has_sep p); [exact IH|].
    destruct (Ascii.eqb c "/"); reflexivity.
Qed.

(** A path that ends in [.py] has a basename that ends in [.py]: the
    extension holds no separator. *)
Lemma endswith_py_basename p :
  endswith p ".py" = true -> endswith (basename p) ".py" = true.
Proof.
  induction p as [|c rest IH]; [discriminate|].
  rewrite endswith_cons, basename_cons. intros Hend.
  apply orb_prop in Hend as [Hwhole|Hrest].
  - apply String.eqb_eq in Hwhole. injection Hwhole as -> ->. reflexivity.
  - destruct (has_sep rest); [exact (IH Hrest)|].
    destruct (Ascii.eqb c "/"); [exact Hrest|].
    rewrite endswith_cons, Hrest. apply orb_true_r.
Qed.

Lemma with_extension_fixed p :
  endswith p ".py" = true -> with_extension p = p.
Proof.
  intros Hend. unfold with_extension.
  rewrite (endswith_py_basename p Hend). reflexivity.
Qed.

Lemma with_extension_idempotent p :
  with_extension (with_extension p) = with_extension p.
Proof. apply with_extension_fixed, with_extension_endswith. Qed.

Lemma with_extension_nonempty c p :
  exists c' p', with_extension (String c p) = String c' p'.
Proof.
  unfold with_extension.
  destruct (endswith (basename (String c p)) ".py").
  - exists c, p. reflexivity.
  - exists c, (p ++ ".py"). reflexivity.
Qed.

Lemma endswith_os_path_join a b : endswith (os_path_join a b) b = true.
Proof.
  unfold os_path_join.
  destruct (startswith b "/"); [apply endswith_refl|].
  destruct (String.eqb a "" || endswith a "/"); [apply endswith_app|].
  change (a ++ "/" ++ b) with (a ++ String "/" b).
  replace (a ++ String "/" b) with ((a ++ "/") ++ b).
  - apply endswith_app.
  - induction a as [|c a IH]; [reflexivity|].
    change ((String c a ++ "/") ++ b) with (String c ((a ++ "/") ++ b)).
    rewrite IH. reflexivity.
Qed.

(** ** The live session, case by case *)

Section EditorMore.
Context `{Host}.

Lemma add_repl_run_connected w c mb name :
  editor_repl w = None ->
  port_name (String c mb) = Some name ->
  Editor.add_repl (Return (Some (String c mb))) None w
  = Ok tt (set_view_repl (Some {| pane_port := name |})
             (splitter w ++ [ {| pane_port := name |} ])
             (set_editor_repl (Some {| port := name |}) w)).
Proof.
  intros Hr. unfold port_name.
  unfold Editor.add_repl, Editor.new_REPL, Window.add_repl.
  run_window. run_monad. cbn. rewrite Hr. cbn.
  destruct (String.eqb os_name "posix"); cbn.
  - intros [= <-]. reflexivity.
  - destruct (String.eqb os_name "nt"); cbn; [|discriminate].
    intros [= <-]. reflexivity.
Qed.

(** X1.  Without a session, on a host [REPL] knows, with a device found and
    its port opening, [add_repl] connects: the editor holds a [REPL] on the
    port ([/dev/<port>] on POSIX, the port itself on Windows), the window
    refers to a pane on that port and has parented it to the splitter.
    Nothing is shown, and files and tabs are as before. *)
Theorem add_repl_connects (w : World) (c : ascii) (mb name : string) :
  editor_repl w = None ->
  port_name (String c mb) = Some name ->
  exists w',
    Editor.add_repl (Return (Some (String c mb))) None w = Ok tt w'
    /\ editor_repl w' = Some {| port := name |}
    /\ view_repl w' = Some {| pane_port := name |}
    /\ splitter w' = (splitter w ++ [ {| pane_port := name |} ])%list
    /\ trace w' = trace w /\ fs w' = fs w /\ tabs w' = tabs w.
Proof.
  intros Hr Hname.
  rewrite (add_repl_run_connected w c mb name Hr Hname).
  eexists; split; [reflexivity|]. repeat split.
Qed.

(** X2.  Without a session, when no device is found (the locator returns
    [None] or an empty port), [add_repl] returns after one message, "Could
    not find an attached BBC micro:bit."; it opens no session and changes
    nothing else. *)
Theorem add_repl_without_device (w : World) (found : option string)
    (opened : option exn) :
  editor_repl w = None ->
  truthy found = false ->
  exists information,
    Editor.add_repl (Return found) opened w
    = Ok tt (log (ShowMessage "Could not find an attached BBC micro:bit."
                    (Some information) None) w).
Proof.
  intros Hr Hfound.
  unfold Editor.add_repl. run_window. run_monad. cbn. rewrite Hr. cbn.
  rewrite Hfound. eexists. reflexivity.
Qed.

(** X3.  When the port of a found device fails to open with an [IOError],
    [add_repl] returns: it has dropped the session it was setting up
    ([Editor.repl] is [None] again), the window is untouched, and the user
    has been shown the error's text.  A later [add_repl] is therefore not
    refused. *)
Theorem add_repl_recovers_from_io_error (w : World) (c : ascii)
    (mb name : string) (ex : exn) :
  editor_repl w = None ->
  port_name (String c mb) = Some name ->
  is_IOError ex = true ->
  exists information w',
    Editor.add_repl (Return (Some (String c mb))) (Some ex) w = Ok tt w'
    /\ w' = log (ShowMessage (exn_str ex) (Some information) None)
              (set_editor_repl None w)
    /\ editor_repl w' = None
    /\ same_state w w'
    /\ Editor.add_repl (Return (Some (String c mb))) None w'
       = Ok tt (set_view_repl (Some {| pane_port := name |})
                  (splitter w' ++ [ {| pane_port := name |} ])
                  (set_editor_repl (Some {| port := name |}) w')).
Proof.
  intros Hr Hname Hio.
  assert (Hrun : exists information,
    Editor.add_repl (Return (Some (String c mb))) (Some ex) w
    = Ok tt (log (ShowMessage (exn_str ex) (Some information) None)
               (set_editor_repl None w))).
  { unfold port_name in Hname.
    unfold Editor.add_repl, Editor.new_REPL, Window.add_repl.
    run_window. run_monad. cbn. rewrite Hr. cbn.
    destruct (String.eqb os_name "posix"); cbn.
    - rewrite Hio. eexists. reflexivity.
    - destruct (String.eqb os_name "nt"); cbn; [|discriminate].
      rewrite Hio. eexists. reflexivity. }
  destruct Hrun as [information Hrun].
  exists information. eexists. split; [exact Hrun|].
  split; [reflexivity|]. split; [reflexivity|]. split.
  - repeat split. cbn. symmetry. exact Hr.
  - apply add_repl_run_connected; [reflexivity | exact Hname].
Qed.

(** X4.  On a host that is neither POSIX nor Windows, [add_repl] with a
    device found raises [NotImplementedError] ("OS not supported.") and
    leaves the world as it was: no session, no message. *)
Theorem add_repl_unsupported_host (w : World) (c : ascii) (mb : string)
    (opened : option exn) :
  editor_repl w = None ->
  port_name (String c mb) = None ->
  Editor.add_repl (Return (Some (String c mb))) opened w
  = Raise (NotImplementedError "OS not supported.") w.
Proof.
  intros Hr. unfold port_name.
  unfold Editor.add_repl, Editor.new_REPL, Window.add_repl.
  run_window. run_monad. cbn. rewrite Hr. cbn.
  destruct (String.eqb os_name "posix"); cbn; [discriminate|].
  destruct (String.eqb os_name "nt"); cbn; [discriminate|].
  reflexivity.
Qed.

(** X5.  When the pane fails with an exception that is not an [IOError],
    [add_repl] lets it through with [Editor.repl] already set although no
    pane exists.  From then on the session can neither be opened nor closed:
    [add_repl] raises "REPL already running" and [remove_repl] raises an
    [AttributeError] from the window, both leaving the world as it is. *)
Theorem add_repl_leaves_stale_session (w : World) (c : ascii)
    (mb name : string) (ex : exn) :
  editor_repl w = None ->
  view_repl w = None ->
  port_name (String c mb) = Some name ->
  is_IOError ex = false ->
  let w' := set_editor_repl (Some {| port := name |}) w in
  Editor.add_repl (Return (Some (String c mb))) (Some ex) w = Raise ex w'
  /\ (forall find opened,
        Editor.add_repl find opened w'
        = Raise (RuntimeError "REPL already running") w')
  /\ (exists msg, Editor.remove_repl w' = Raise (AttributeError msg) w')
  /\ (exists msg, forall find opened,
        Editor.toggle_repl find opened w' = Raise (AttributeError msg) w').
Proof.
  intros Hr Hview Hname Hio w'. subst w'.
  split; [|split; [|split]].
  - unfold port_name in Hname.
    unfold Editor.add_repl, Editor.new_REPL, Window.add_repl.
    run_window. run_monad. cbn. rewrite Hr. cbn.
    destruct (String.eqb os_name "posix"); cbn.
    + rewrite Hio. injection Hname as <-. reflexivity.
    + destruct (String.eqb os_name "nt"); cbn; [|discriminate].
      rewrite Hio. injection Hname as <-. reflexivity.
  - intros find opened. apply add_repl_already_open. cbn. eauto.
  - unfold Editor.remove_repl, Window.remove_repl. run_monad. cbn.
    rewrite Hview. eexists. reflexivity.
  - unfold Editor.toggle_repl, Editor.remove_repl, Window.remove_repl.
    run_monad. cbn. rewrite Hview. eexists. reflexivity.
Qed.

Lemma remove_repl_run w r pane :
  editor_repl w = Some r ->
  view_repl w = Some pane ->
  Editor.remove_repl w
  = Ok tt (set_editor_repl None
             (set_view_repl None (Window.unparent pane (splitter w)) w)).
Proof.
  intros Hr Hview.
  unfold Editor.remove_repl, Window.remove_repl. run_monad. cbn.
  rewrite Hr, Hview. reflexivity.
Qed.

(** X6.  Opening the session and closing it again is a round trip: from a
    world without a session (no editor reference, no pane), [add_repl] that
    connects followed by [remove_repl] returns to a world with the same
    files, tabs, themes, trace and, again, no session and no pane. *)
Theorem add_then_remove_repl (w : World) (c : ascii) (mb name : string) :
  editor_repl w = None ->
  view_repl w = None ->
  splitter w = [] ->
  port_name (String c mb) = Some name ->
  exists w1 w2,
    Editor.add_repl (Return (Some (String c mb))) None w = Ok tt w1
    /\ Editor.remove_repl w1 = Ok tt w2
    /\ same_state w w2
    /\ trace w2 = trace w.
Proof.
  intros Hr Hview Hsplit Hname.
  rewrite (add_repl_run_connected w c mb name Hr Hname).
  eexists; eexists. split; [reflexivity|].
  rewrite (remove_repl_run _ {| port := name |} {| pane_port := name |})
    by reflexivity.
  split; [reflexivity|]. cbn.
  rewrite Hsplit. cbn. rewrite String.eqb_refl.
  repeat split; cbn; congruence.
Qed.

(** X7.  [toggle_repl] opens the session when there is none and closes it
    when there is one, so its two guards never fire: from a world without a
    session it ends as [add_repl] does and never with "REPL already
    running"; from a world with a session and its pane it returns with the
    session closed. *)
Theorem toggle_repl_alternates (w : World) (found : option string)
    (opened : option exn) :
  (editor_repl w = None ->
   Editor.toggle_repl (Return found) opened w
   = Editor.add_repl (Return found) opened w
   /\ (opened <> Some (RuntimeError "REPL already running") ->
       forall w',
         Editor.toggle_repl (Return found) opened w
         <> Raise (RuntimeError "REPL already running") w'))
  /\ (forall r pane,
        editor_repl w = Some r -> view_repl w = Some pane ->
        exists w',
          Editor.toggle_repl (Return found) opened w = Ok tt w'
          /\ editor_repl w' = None /\ view_repl w' = None
          /\ splitter w' = Window.unparent pane (splitter w)).
Proof.
  split.
  - intros Hr.
    assert (Htoggle : Editor.toggle_repl (Return found) opened w
                      = Editor.add_repl (Return found) opened w).
    { unfold Editor.toggle_repl. unfold mbind at 1, M_bind at 1, get at 1.
      rewrite Hr. reflexivity. }
    split; [exact Htoggle|].
    intros Hopened w'. rewrite Htoggle.
    unfold Editor.add_repl, Editor.new_REPL, Window.add_repl.
    run_window. run_monad. cbn. rewrite Hr. cbn.
    destruct (truthy found); cbn; [|discriminate].
    destruct (String.eqb os_name "posix"); cbn.
    + destruct opened as [e|]; cbn; [|discriminate].
      destruct (is_IOError e) eqn:He; cbn; [discriminate|].
      intros [= -> _]. contradiction.
    + destruct (String.eqb os_name "nt"); cbn; [|discriminate].
      destruct opened as [e|]; cbn; [|discriminate].
      destruct (is_IOError e) eqn:He; cbn; [discriminate|].
      intros [= -> _]. contradiction.
  - intros r pane Hr Hview.
    assert (Htoggle : Editor.toggle_repl (Return found) opened w
                      = Editor.remove_repl w).
    { unfold Editor.toggle_repl. unfold mbind at 1, M_bind at 1, get at 1.
      rewrite Hr. reflexivity. }
    rewrite Htoggle, (remove_repl_run w r pane Hr Hview).
    eexists. split; [reflexivity|]. repeat split.
Qed.

(** X8.  In every world the application can reach, the window and its
    splitter agree about the pane, and a pane on screen always has a session
    behind it: with no pane referred to, the splitter holds none; with a
    pane referred to, the splitter holds exactly that one and [Editor.repl]
    is set. *)
Theorem pane_has_session (w : World) :
  reachable w ->
  match view_repl w with
  | None => splitter w = []
  | Some pane => splitter w = [pane] /\ is_Some (editor_repl w)
  end.
Proof.
  intros Hreach.
  destruct (reachable_invariant w Hreach)
    as [[Hsplit ->]|(pane & Hsplit & -> & Hsome)]; auto.
Qed.

(** ** Loading and saving, case by case *)

Lemma load_script_run w p t :
  endswith p ".py" = true ->
  lookup_file p (fs w) = Some t ->
  Editor.load p w
  = Ok tt (set_tabs (tabs w ++ [new_EditorPane (Some p) t]) (length (tabs w))
             (log (GetLoadPath Editor.MICROPYTHON_DIRECTORY) w)).
Proof.
  intros Hpy Hfile. unfold Editor.load. run_window. run_monad. cbn.
  rewrite Hpy. cbn. rewrite Hfile. reflexivity.
Qed.

(** X9.  [load] on a path whose file is missing, script or image alike, is
    a silent no-op: it returns with tabs, files and messages as they were,
    having only asked for the path. *)
Theorem load_missing_file_is_silent (w : World) (p : string) :
  lookup_file p (fs w) = None ->
  let asked := log (GetLoadPath Editor.MICROPYTHON_DIRECTORY) w in
  Editor.load p w = Ok tt asked
  /\ same_state w asked
  /\ messages asked = messages w.
Proof.
  intros Hfile asked. split; [|split].
  - unfold Editor.load. run_window. run_monad. cbn.
    destruct (endswith p ".py"); cbn; rewrite Hfile; reflexivity.
  - apply same_state_log.
  - apply messages_log_other. reflexivity.
Qed.

(** X10.  [load] on an existing script (a path ending in [.py]) opens it:
    a new last tab holds the file's text under that path, unmodified, and is
    the current tab; the tabs before it, the files and the messages are as
    they were. *)
Theorem load_opens_script (w : World) (p t : string) :
  endswith p ".py" = true ->
  lookup_file p (fs w) = Some t ->
  exists w',
    Editor.load p w = Ok tt w'
    /\ tabs w' = (tabs w ++ [ {| path := Some p; text := t;
                                 modified := false |} ])%list
    /\ tabs w' !! current_index w'
       = Some {| path := Some p; text := t; modified := false |}
    /\ fs w' = fs w
    /\ messages w' = messages w.
Proof.
  intros Hpy Hfile. rewrite (load_script_run w p t Hpy Hfile).
  eexists. split; [reflexivity|]. cbn.
  split; [reflexivity|]. split; [|split; [reflexivity|]].
  - rewrite lookup_app_r by lia. rewrite Nat.sub_diag. reflexivity.
  - apply messages_log_other. reflexivity.
Qed.

Lemma save_run w tab answer c q :
  tabs w !! current_index w = Some tab ->
  match path tab with Some p => p | None => answer end = String c q ->
  Editor.save answer w
  = Ok tt
      (set_fs (fun files => <[with_extension (String c q) := text tab]> files)
         (set_tabs
            (<[current_index w :=
                 {| path := Some (with_extension (String c q));
                    text := text tab; modified := false |}]> (tabs w))
            (current_index w)
            match path tab with
            | None => log (GetSavePath Editor.MICROPYTHON_DIRECTORY) w
            | Some _ => w
            end)).
Proof.
  intros Hcur Hchosen.
  unfold Editor.save, Editor.store_tab. run_window. run_monad. cbn.
  rewrite Hcur.
  destruct tab as [[p|] t m]; cbn in *; subst; cbn;
    unfold with_extension;
    destruct (endswith (basename (String c q)) ".py"); cbn;
    rewrite ?append_nonempty; cbn; rewrite ?store_twice; reflexivity.
Qed.



(** X12.  Saving twice is saving once: after a save that wrote the document,
    a second [save] asks nothing (whatever the dialog would answer), keeps
    the path (no second [.py] is appended) and leaves files, tabs and trace
    exactly as the first save left them. *)
Theorem save_is_idempotent (w : World) (tab : EditorPane)
    (answer answer' : string) (c : ascii) (q : string) :
  tabs w !! current_index w = Some tab ->
  match path tab with Some p => p | None => answer end = String c q ->
  exists w1 w2,
    Editor.save answer w = Ok tt w1
    /\ Editor.save answer' w1 = Ok tt w2
    /\ fs w2 = fs w1 /\ tabs w2 = tabs w1 /\ trace w2 = trace w1
    /\ current_index w2 = current_index w1.
Proof.
  intros Hcur Hchosen.
  assert (Hlt : current_index w < length (tabs w))
    by (eapply lookup_lt_Some, Hcur).
  rewrite (save_run w tab answer c q Hcur Hchosen).
  destruct (with_extension_nonempty c q) as (c' & q' & Hp).
  eexists; eexists. split; [reflexivity|].
  rewrite save_run
    with (tab := {| path := Some (with_extension (String c q));
                    text := text tab; modified := false |})
         (c := c') (q := q').
  - split; [reflexivity|]. cbn.
    rewrite <- Hp, with_extension_idempotent.
    destruct (path tab); cbn;
      rewrite insert_insert_eq, list_insert_insert_eq; repeat split.
  - cbn. destruct (path tab); cbn; apply list_lookup_insert_eq, Hlt.
  - cbn. exact Hp.
Qed.

Lemma load_image_run w p content t :
  endswith p ".py" = false ->
  lookup_file p (fs w) = Some content ->
  extract_script content = Return t ->
  Editor.load p w
  = Ok tt (set_tabs (tabs w ++ [new_EditorPane None t]) (length (tabs w))
             (log (GetLoadPath Editor.MICROPYTHON_DIRECTORY) w)).
Proof.
  intros Hpy Hfile Hext. unfold Editor.load. run_window. run_monad. cbn.
  rewrite Hpy. cbn. rewrite Hfile. cbn. rewrite Hext. reflexivity.
Qed.

Lemma lookup_new_tab (ws : list EditorPane) (doc : EditorPane) :
  (ws ++ [doc])%list !! length ws = Some doc.
Proof. rewrite lookup_app_r by lia. rewrite Nat.sub_diag. reflexivity. Qed.

(** X23.  A script recovered from an image has no name: after [load] on a
    file that is not a script, from which the extractor returns a script,
    [save] asks the user for a path and writes the recovered script there
    with [.py] enforced, so the file written is never the image that was
    loaded. *)
Theorem load_image_then_save_asks (w : World) (p content t : string)
    (c : ascii) (q : string) :
  endswith p ".py" = false ->
  lookup_file p (fs w) = Some content ->
  extract_script content = Return t ->
  exists w1 w2,
    Editor.load p w = Ok tt w1
    /\ tabs w1 !! current_index w1 = Some (new_EditorPane None t)
    /\ Editor.save (String c q) w1 = Ok tt w2
    /\ trace w2 = (trace w
                     ++ [GetLoadPath Editor.MICROPYTHON_DIRECTORY;
                         GetSavePath Editor.MICROPYTHON_DIRECTORY])%list
    /\ fs w2 = <[with_extension (String c q) := t]> (fs w)
    /\ with_extension (String c q) <> p.
Proof.
  intros Hpy Hfile Hext.
  rewrite (load_image_run w p content t Hpy Hfile Hext).
  eexists; eexists. split; [reflexivity|].
  split; [apply lookup_new_tab|].
  rewrite save_run with (tab := new_EditorPane None t) (c := c) (q := q);
    [|apply lookup_new_tab | reflexivity].
  split; [reflexivity|]. cbn. split; [|split; [reflexivity|]].
  - rewrite <- app_assoc. reflexivity.
  - intros E. pose proof (with_extension_endswith (String c q)) as Hend.
    rewrite E in Hend. congruence.
Qed.


(** ** Quitting and starting again *)

Lemma quit_run_unmodified w args answer :
  existsb modified (tabs w) = false ->
  Editor.quit args answer w
  = Raise (SystemExit 0)
      (set_fs (fun files =>
         <[Editor.SESSION_FILE := json_dump (persisted (tabs w))]> files) w).
Proof.
  intros Hmod. unfold Editor.quit. run_window. run_monad. cbn.
  rewrite session_file_nonempty, Hmod. cbn.
  rewrite session_paths_persisted. reflexivity.
Qed.

Lemma quit_run_confirmed w args :
  existsb modified (tabs w) = true ->
  Editor.quit args QOk w
  = Raise (SystemExit 0)
      (set_fs (fun files =>
         <[Editor.SESSION_FILE := json_dump (persisted (tabs w))]> files)
         (log (ShowConfirmation "You have un-saved work!") w)).
Proof.
  intros Hmod. unfold Editor.quit. run_window. run_monad. cbn.
  rewrite session_file_nonempty, Hmod. cbn.
  rewrite session_paths_persisted. reflexivity.
Qed.

Lemma lookup_session_file content (files : gmap string string) :
  lookup_file Editor.SESSION_FILE (<[Editor.SESSION_FILE := content]> files)
  = Some content.
Proof.
  unfold lookup_file. rewrite session_file_nonempty. apply lookup_insert_eq.
Qed.

Lemma existsb_modified_insert (ws : list EditorPane) i doc :
  modified doc = false ->
  (forall j t, j <> i -> ws !! j = Some t -> modified t = false) ->
  existsb modified (<[i := doc]> ws) = false.
Proof.
  intros Hdoc Hothers.
  destruct (existsb modified (<[i := doc]> ws)) eqn:E; [|reflexivity].
  apply existsb_exists in E as (t & Hin & Ht).
  apply list_elem_of_In, list_elem_of_lookup in Hin as [j Hj].
  destruct (decide (j = i)) as [->|Hne].
  - assert (Hlt : i < length ws).
    { apply lookup_lt_Some in Hj. rewrite length_insert in Hj. exact Hj. }
    rewrite list_lookup_insert_eq in Hj by exact Hlt. congruence.
  - rewrite list_lookup_insert_ne in Hj by congruence.
    rewrite (Hothers j t Hne Hj) in Ht. discriminate.
Qed.

(** X13.  After saving the only modified document, [quit] does not ask: if
    no other tab is modified, [save] that writes the active document followed
    by [quit] ends the process without a confirmation dialog, whatever the
    user would have answered, and the session file lists the saved path. *)
Theorem save_then_quit_does_not_ask (w : World) (tab : EditorPane)
    (answer : string) (c : ascii) (q : string) (args : list qt_arg)
    (pressed : button) :
  tabs w !! current_index w = Some tab ->
  match path tab with Some p => p | None => answer end = String c q ->
  (forall j t, j <> current_index w -> tabs w !! j = Some t ->
               modified t = false) ->
  exists w1 w2,
    Editor.save answer w = Ok tt w1
    /\ Editor.quit args pressed w1 = Raise (SystemExit 0) w2
    /\ trace w2 = trace w1
    /\ with_extension (String c q) ∈ persisted (tabs w1)
    /\ lookup_file Editor.SESSION_FILE (fs w2)
       = Some (json_dump (persisted (tabs w1))).
Proof.
  intros Hcur Hchosen Hothers.
  assert (Hlt : current_index w < length (tabs w))
    by (eapply lookup_lt_Some, Hcur).
  rewrite (save_run w tab answer c q Hcur Hchosen).
  eexists; eexists. split; [reflexivity|].
  rewrite quit_run_unmodified.
  - split; [reflexivity|]. split; [reflexivity|]. split.
    + apply elem_of_persisted.
      exists {| path := Some (with_extension (String c q));
                text := text tab; modified := false |}.
      split; [|split; [reflexivity|]].
      * cbn. apply list_elem_of_lookup. exists (current_index w).
        destruct (path tab); cbn; apply list_lookup_insert_eq, Hlt.
      * destruct (with_extension_nonempty c q) as (c' & q' & ->).
        discriminate.
    + cbn. apply lookup_session_file.
  - cbn. destruct (path tab); cbn;
      apply existsb_modified_insert; auto.
Qed.

Lemma existing_of_persisted files content (ws : list EditorPane) :
  Forall (in_step files) ws ->
  Forall (fun d => path d <> Some Editor.SESSION_FILE) ws ->
  existing (<[Editor.SESSION_FILE := content]> files) (persisted ws)
  = titled ws.
Proof.
  induction 1 as [|[[[|c p]|] t m] ws Hstep _ IH]; intros Hother;
    [reflexivity|..]; apply Forall_cons in Hother as [Hp Hother].
  - destruct Hstep as [Hfile _]. discriminate Hfile.
  - destruct Hstep as [Hfile Hm]. cbn in Hfile, Hm, Hp. subst m.
    change (persisted ({| path := Some (String c p); text := t;
                          modified := false |} :: ws))
      with (String c p :: persisted ws).
    change (titled ({| path := Some (String c p); text := t;
                       modified := false |} :: ws))
      with ({| path := Some (String c p); text := t; modified := false |}
            :: titled ws).
    rewrite existing_cons.
    unfold lookup_file at 1. cbn [String.eqb].
    rewrite lookup_insert_ne by congruence.
    unfold lookup_file in Hfile. cbn [String.eqb] in Hfile.
    rewrite Hfile, (IH Hother). reflexivity.
  - apply (IH Hother).
Qed.

(** X14.  The session survives a restart.  Suppose every document with a
    path is in step with its file (the file holds its text, nothing
    unsaved) and none is the session file itself, and the host's [json.load]
    reads back what [json.dump] wrote for these paths.  Then [quit] that goes
    through writes a session from which [restore_session], on a fresh
    start over the files [quit] left, opens exactly the documents that had a
    path, in tab order, or the placeholder if there was none.  Untitled
    buffers are gone. *)
Theorem quit_then_restore_round_trip (w : World) (args : list qt_arg)
    (answer : button) (theme : string) :
  existsb modified (tabs w) = false \/ answer = QOk ->
  json_load (json_dump (persisted (tabs w))) = Return (persisted (tabs w)) ->
  Forall (in_step (fs w)) (tabs w) ->
  Forall (fun d => path d <> Some Editor.SESSION_FILE) (tabs w) ->
  exists w1 w2,
    Editor.quit args answer w = Raise (SystemExit 0) w1
    /\ Editor.restore_session (initial (fs w1) theme) = Ok tt w2
    /\ tabs w2 = match titled (tabs w) with
                 | [] => [new_EditorPane None Editor.py]
                 | docs => docs
                 end.
Proof.
  intros Hgo Hjson Hstep Hother.
  assert (Hquit : exists w1,
    Editor.quit args answer w = Raise (SystemExit 0) w1
    /\ fs w1 = <[Editor.SESSION_FILE := json_dump (persisted (tabs w))]>
                 (fs w)).
  { destruct (existsb modified (tabs w)) eqn:Hmod.
    - destruct Hgo as [?| ->]; [discriminate|].
      rewrite (quit_run_confirmed w args Hmod). eexists; split; reflexivity.
    - rewrite (quit_run_unmodified w args answer Hmod).
      eexists; split; reflexivity. }
  destruct Hquit as (w1 & Hquit & Hfs).
  pose proof (restore_session_run (initial (fs w1) theme)
                (json_dump (persisted (tabs w))) (persisted (tabs w)))
    as Hrestore.
  cbn [fs initial] in Hrestore. rewrite Hfs in Hrestore.
  specialize (Hrestore (lookup_session_file _ _) Hjson).
  cbv zeta in Hrestore.
  rewrite (existing_of_persisted _ _ _ Hstep Hother) in Hrestore.
  rewrite <- Hfs in Hrestore.
  pose proof (add_tabs_tabs (titled (tabs w)) (initial (fs w1) theme))
    as Htabs.
  cbn [tabs initial app] in Htabs.
  rewrite Htabs in Hrestore.
  exists w1.
  destruct (titled (tabs w)) as [|d docs] eqn:E.
  - eexists. split; [exact Hquit|]. split; [exact Hrestore|]. reflexivity.
  - eexists. split; [exact Hquit|]. split; [exact Hrestore|]. exact Htabs.
Qed.

(** X15.  A first start followed by [quit]: with no session file,
    [restore_session] opens the placeholder; quitting then ends the process
    without asking anything and persists the empty session, since the
    placeholder has no path and is not modified. *)
Theorem fresh_start_then_quit (files : gmap string string) (theme : string)
    (args : list qt_arg) (answer : button) :
  lookup_file Editor.SESSION_FILE files = None ->
  exists w1 w2,
    Editor.restore_session (initial files theme) = Ok tt w1
    /\ tabs w1 = [new_EditorPane None Editor.py]
    /\ Editor.quit args answer w1 = Raise (SystemExit 0) w2
    /\ trace w2 = []
    /\ fs w2 = <[Editor.SESSION_FILE := json_dump []]> files.
Proof.
  intros Hfile.
  rewrite restore_session_absent by exact Hfile. cbn [tabs initial].
  eexists; eexists. split; [reflexivity|]. split; [reflexivity|].
  rewrite quit_run_unmodified by reflexivity.
  repeat split.
Qed.

Lemma restore_session_json_error w content e :
  lookup_file Editor.SESSION_FILE (fs w) = Some content ->
  json_load content = Throw e ->
  Editor.restore_session w = Raise e w.
Proof.
  intros Hfile Hjson.
  unfold Editor.restore_session, os_path_exists, Window.tab_count, get.
  set (body := fun tab : string => try_except_else _ _ _ _) in *.
  unfold mbind, M_bind, read_file. rewrite Hfile. cbn.
  rewrite ?Hfile, Hjson. reflexivity.
Qed.

(** X16.  [restore_session] only ever opens tabs: however it ends, it has
    written no file, shown no dialog and left the live session and the tabs
    already open as they were; new tabs come after them. *)
Theorem restore_session_only_adds_tabs (w : World) :
  let w' := final (Editor.restore_session w) in
  fs w' = fs w
  /\ trace w' = trace w
  /\ repl_state w' = repl_state w
  /\ (exists more, tabs w' = (tabs w ++ more)%list).
Proof.
  cbv zeta. split; [|split; [|split]].
  4:{ destruct (lookup_file Editor.SESSION_FILE (fs w)) as [content|] eqn:Hfile.
      - destruct (json_load content) as [session|e] eqn:Hjson.
        + rewrite (restore_session_run w content session Hfile Hjson).
          cbv zeta.
          pose proof (add_tabs_tabs (existing (fs w) session) w) as Htabs.
          destruct (tabs (add_tabs (existing (fs w) session) w)) eqn:E; cbn.
          * exists [new_EditorPane None Editor.py].
            destruct (tabs w); [reflexivity | discriminate Htabs].
          * rewrite E. eexists. exact Htabs.
        + rewrite (restore_session_json_error w content e Hfile Hjson).
          exists []. cbn. symmetry. apply app_nil_r.
      - rewrite (restore_session_absent w Hfile).
        destruct (tabs w) eqn:E; cbn; rewrite ?E.
        + eexists. reflexivity.
        + exists []. cbn. rewrite app_nil_r. reflexivity. }
  - assert (Hfs : preserves fs Editor.restore_session).
    { unfold Editor.restore_session, os_path_exists. run_window. preserve. }
    apply Hfs.
  - assert (Htrace : preserves trace Editor.restore_session).
    { unfold Editor.restore_session, os_path_exists. run_window. preserve. }
    apply Htrace.
  - apply keeps_restore_session.
Qed.

(** X25.  A session file that [json.load] cannot read stops
    [restore_session]: the error of [json.load] leaves it at once, with the
    world as it was.  No tab is opened, not even the placeholder, and
    nothing is shown. *)
Theorem restore_session_fails_on_unreadable_session (w : World)
    (content : string) (e : exn) :
  lookup_file Editor.SESSION_FILE (fs w) = Some content ->
  json_load content = Throw e ->
  Editor.restore_session w = Raise e w.
Proof. apply restore_session_json_error. Qed.

(** ** What the editor writes, and what it leaves alone *)

Lemma preserves_remove_repl {B} (aspect : World -> B) :
  (forall r panes w, aspect (set_view_repl r panes w) = aspect w) ->
  preserves aspect Window.remove_repl.
Proof.
  intros Hview w. unfold Window.remove_repl.
  destruct (view_repl w); cbn; [apply Hview | reflexivity].
Qed.

Lemma preserves_write_file {B} (aspect : World -> B) p content :
  (forall f w, aspect (set_fs f w) = aspect w) ->
  preserves aspect (write_file p content).
Proof.
  intros Hfs w. unfold write_file.
  destruct (String.eqb p ""); cbn; [reflexivity | apply Hfs].
Qed.

Ltac preserve_more :=
  repeat first
    [ progress preserve
    | apply preserves_remove_repl; intros; reflexivity
    | apply preserves_write_file; intros; reflexivity ].

Lemma preserves_fs_add_repl find opened :
  preserves fs (Editor.add_repl find opened).
Proof.
  unfold Editor.add_repl, Editor.new_REPL, Window.add_repl.
  run_window. preserve_more.
Qed.

Lemma preserves_fs_remove_repl : preserves fs Editor.remove_repl.
Proof. unfold Editor.remove_repl. preserve_more. Qed.

Lemma writes_only_save answer : writes_only editor_file (Editor.save answer).
Proof.
  intros w p Hp.
  destruct (tabs w !! current_index w) as [tab|] eqn:Hcur.
  - destruct (match path tab with Some p => p | None => answer end)
      as [|c q] eqn:Hchosen.
    + unfold Editor.save, Editor.store_tab. run_window. run_monad. cbn.
      rewrite Hcur.
      destruct tab as [[p0|] t m]; cbn in *; subst; reflexivity.
    + rewrite (save_run w tab answer c q Hcur Hchosen). cbn.
      rewrite lookup_insert_ne.
      * destruct (path tab); reflexivity.
      * intros <-. apply Hp. left. apply with_extension_endswith.
  - unfold Editor.save. run_window. run_monad. cbn. rewrite Hcur.
    reflexivity.
Qed.

Lemma writes_only_flash find : writes_only editor_file (Editor.flash find).
Proof.
  unfold Editor.flash, Editor.save_hex. run_window.
  repeat first
    [ solve [apply writes_only_preserves; preserve]
    | apply writes_only_write_file; right; left; apply endswith_os_path_join
    | apply writes_only_bind; [|intros ?]
    | match goal with
      | |- writes_only _ (match ?x with _ => _ end) => destruct x
      end ].
Qed.

Lemma writes_only_quit args answer :
  writes_only editor_file (Editor.quit args answer).
Proof.
  unfold Editor.quit. run_window.
  repeat first
    [ solve [apply writes_only_preserves; preserve]
    | apply writes_only_write_file; right; right; reflexivity
    | apply writes_only_bind; [|intros ?]
    | match goal with
      | |- writes_only _ (match ?x with _ => _ end) => destruct x
      end ].
Qed.

(** X17.  The editor writes nothing but scripts, the image on the device and
    its session file: whatever method runs, with whatever answers and
    however it ends, a file whose path neither ends in [.py] nor in
    [micropython.hex] nor is the session file is afterwards what it was
    before (present with the same content, or absent). *)
Theorem editor_writes_only_its_files (o : op) (w : World) (p : string) :
  match o with Outside _ _ _ => False | _ => True end ->
  endswith p ".py" = false ->
  endswith p "micropython.hex" = false ->
  p <> Editor.SESSION_FILE ->
  fs (final (run_op o w)) !! p = fs w !! p.
Proof.
  intros Hin Hpy Hhex Hsession.
  assert (Hp : ~ editor_file p).
  { intros [E|[E|E]]; congruence. }
  assert (Hkeep : forall c : M unit,
            preserves fs c -> fs (final (c w)) !! p = fs w !! p).
  { intros c Hc. rewrite Hc. reflexivity. }
  destruct o; cbn [run_op]; try contradiction.
  - apply Hkeep. unfold Editor.restore_session, os_path_exists.
    run_window. preserve.
  - apply writes_only_flash, Hp.
  - apply Hkeep, preserves_fs_add_repl.
  - apply Hkeep, preserves_fs_remove_repl.
  - apply Hkeep. unfold Editor.toggle_repl.
    apply preserves_bind; [apply preserves_get|].
    intros [r|]; [apply preserves_fs_remove_repl | apply preserves_fs_add_repl].
  - apply Hkeep. unfold Editor.toggle_theme. run_window. preserve.
  - apply Hkeep. unfold Editor.new. run_window. preserve.
  - apply Hkeep. unfold Editor.load. run_window. preserve.
  - apply writes_only_save, Hp.
  - reflexivity.
  - reflexivity.
  - apply writes_only_quit, Hp.
Qed.

(** ** Themes *)

Lemma toggle_theme_run w :
  Editor.toggle_theme w
  = Ok tt (let theme := if String.eqb (editor_theme w) "day"
                        then "night" else "day" in
           set_view_theme theme (set_editor_theme theme w)).
Proof.
  unfold Editor.toggle_theme. run_window. run_monad. cbn.
  destruct (String.eqb (editor_theme w) "day"); reflexivity.
Qed.

Lemma preserves_editor_theme o :
  match o with ToggleTheme => False | _ => True end ->
  preserves editor_theme (run_op o).
Proof.
  destruct o; cbn [run_op]; intros Hop; try contradiction.
  - unfold Editor.restore_session, os_path_exists. run_window. preserve.
  - unfold Editor.flash, Editor.save_hex. run_window. preserve_more.
  - unfold Editor.add_repl, Editor.new_REPL, Window.add_repl.
    run_window. preserve_more.
  - unfold Editor.remove_repl. preserve_more.
  - unfold Editor.toggle_repl, Editor.remove_repl, Editor.add_repl,
      Editor.new_REPL, Window.add_repl.
    run_window. preserve_more.
  - unfold Editor.new. run_window. preserve.
  - unfold Editor.load. run_window. preserve.
  - unfold Editor.save, Editor.store_tab. run_window. preserve_more.
  - unfold Editor.zoom_in. preserve.
  - unfold Editor.zoom_out. preserve.
  - unfold Editor.quit. run_window. preserve_more.
  - preserve.
Qed.

Lemma reachable_theme w :
  reachable w -> editor_theme w = "day" \/ editor_theme w = "night".
Proof.
  induction 1 as [files theme|w o _ IH]; [left; reflexivity|].
  destruct o; try (rewrite preserves_editor_theme by exact I; exact IH).
  cbn [run_op]. rewrite toggle_theme_run. cbn.
  destruct (String.eqb (editor_theme w) "day"); auto.
Qed.

(** X18.  The editor's theme is always day or night, in every world the
    application can reach, and [toggle_theme] flips it: it never fails, the
    theme afterwards is the other one and the window has been given the same
    theme; toggling twice is back at the theme it started from. *)
Theorem toggle_theme_flips (w : World) :
  reachable w ->
  (editor_theme w = "day" \/ editor_theme w = "night")
  /\ exists w1 w2,
       Editor.toggle_theme w = Ok tt w1
       /\ editor_theme w1 <> editor_theme w
       /\ view_theme w1 = editor_theme w1
       /\ Editor.toggle_theme w1 = Ok tt w2
       /\ editor_theme w2 = editor_theme w
       /\ view_theme w2 = editor_theme w.
Proof.
  intros Hreach. pose proof (reachable_theme w Hreach) as Htheme.
  split; [exact Htheme|].
  destruct Htheme as [E|E];
    (eexists; eexists; split; [apply toggle_theme_run|]);
    rewrite toggle_theme_run; cbn; rewrite E; cbn;
    repeat split; discriminate.
Qed.

(** ** New documents *)

(** X19.  [new] never fails and never asks for anything: it opens one more
    tab, empty, without a path and unmodified, which becomes the current
    tab; whether there is unsaved work ([Window.modified]) is as before, and
    so are the tabs already open, the files and the trace. *)
Theorem new_opens_untitled_tab (w : World) :
  exists w',
    Editor.new w = Ok tt w'
    /\ tabs w' = (tabs w ++ [ {| path := None; text := "";
                                 modified := false |} ])%list
    /\ tabs w' !! current_index w'
       = Some {| path := None; text := ""; modified := false |}
    /\ existsb modified (tabs w') = existsb modified (tabs w)
    /\ persisted (tabs w') = persisted (tabs w)
    /\ fs w' = fs w /\ trace w' = trace w.
Proof.
  eexists. split; [reflexivity|]. cbn.
  split; [reflexivity|]. split; [|split; [|split; [|split; reflexivity]]].
  - rewrite lookup_app_r by lia. rewrite Nat.sub_diag. reflexivity.
  - rewrite existsb_app. cbn. rewrite !orb_false_r. reflexivity.
  - unfold persisted. rewrite omap_app. cbn. apply app_nil_r.
Qed.

(** ** Flashing, case by case *)

(** X20.  [flash] leaves the documents and the live session alone: however
    it ends, tabs (paths, texts and modified flags), the current tab and the
    session are as before.  With no active tab it does nothing at all: it
    returns at once, without encoding, looking for the device or showing a
    message. *)
Theorem flash_leaves_documents_alone (w : World)
    (find : pyres (option string)) :
  tabs (final (Editor.flash find w)) = tabs w
  /\ current_index (final (Editor.flash find w)) = current_index w
  /\ repl_state (final (Editor.flash find w)) = repl_state w
  /\ match tabs w !! current_index w with
     | None => Editor.flash find w = Ok tt w
     | Some _ => True
     end.
Proof.
  split; [|split; [|split]].
  - assert (Hk : preserves tabs (Editor.flash find)).
    { unfold Editor.flash, Editor.save_hex. run_window. preserve_more. }
    apply Hk.
  - assert (Hk : preserves current_index (Editor.flash find)).
    { unfold Editor.flash, Editor.save_hex. run_window. preserve_more. }
    apply Hk.
  - apply keeps_flash.
  - destruct (tabs w !! current_index w) eqn:Hcur; [exact I|].
    unfold Editor.flash. run_window. run_monad. cbn. rewrite Hcur.
    reflexivity.
Qed.

(** X21.  With an active document, an encoder that accepts its script and a
    device mounted at [dev], [flash] writes the image (the runtime with the
    encoded script embedded) to [micropython.hex] at the device's root,
    whatever that file held, and then tells the user it is flashing the
    document, named by its label.  No other file changes. *)
Theorem flash_writes_image (w : World) (tab : EditorPane)
    (hex image : string) (c : ascii) (dev : string) :
  tabs w !! current_index w = Some tab ->
  hexlify (text tab) = Return hex ->
  embed_hex uflash_RUNTIME hex = Return image ->
  let hex_file := os_path_join (String c dev) "micropython.hex" in
  exists information w',
    Editor.flash (Return (Some (String c dev))) w = Ok tt w'
    /\ fs w' = <[hex_file := image]> (fs w)
    /\ lookup_file hex_file (fs w') = Some image
    /\ trace w' =
         (trace w
            ++ [ShowMessage
                  ("Flashing " ++ Editor.dquote ++ label tab ++ Editor.dquote
                     ++ " onto the micro:bit.")
                  (Some information) (Some "Information")])%list.
Proof.
  intros Hcur Hhex Himage hex_file.
  pose proof (os_path_join_nonempty (String c dev) "m" "icropython.hex")
    as Hne.
  subst hex_file.
  assert (Hrun : exists information,
    Editor.flash (Return (Some (String c dev))) w
    = Ok tt (log (ShowMessage
                    ("Flashing " ++ Editor.dquote ++ label tab
                       ++ Editor.dquote ++ " onto the micro:bit.")
                    (Some information) (Some "Information"))
               (set_fs (fun files =>
                  <[os_path_join (String c dev) "micropython.hex" := image]>
                    files) w))).
  { unfold Editor.flash, Editor.save_hex. run_window. run_monad. cbn.
    rewrite Hcur, Hhex. cbn. rewrite Himage. cbn.
    rewrite Hne. eexists. reflexivity. }
  destruct Hrun as [information Hrun].
  exists information. eexists. split; [exact Hrun|]. cbn.
  split; [reflexivity|]. split; [|reflexivity].
  unfold lookup_file. rewrite Hne. apply lookup_insert_eq.
Qed.

(** ** Labels *)

Lemma has_sep_basename p : has_sep (basename p) = false.
Proof.
  induction p as [|c rest IH]; [reflexivity|].
  rewrite basename_cons.
  destruct (has_sep rest) eqn:Hrest; [exact IH|].
  destruct (Ascii.eqb c "/") eqn:Hc; [exact Hrest|].
  cbn [has_sep]. rewrite Hc, Hrest. reflexivity.
Qed.

Lemma append_empty_r s : s ++ "" = s.
Proof.
  induction s as [|c s IH]; [reflexivity|].
  change (String c s ++ "") with (String c (s ++ "")).
  rewrite IH. reflexivity.
Qed.

(** X22.  The label of a tab names the file, not where it is: it never
    holds a path separator.  It is the basename of the path, or [untitled]
    for a document without one, followed by [ *] exactly when the document
    is modified. *)
Theorem label_names_the_file (tab : EditorPane) :
  has_sep (label tab) = false
  /\ label tab
     = (match path tab with
        | Some (String c p) => basename (String c p)
        | _ => "untitled"
        end) ++ (if modified tab then " *" else "")
  /\ (modified tab = true -> endswith (label tab) " *" = true).
Proof.
  destruct tab as [[[|c p]|] t [|]]; cbn [label path modified truthy];
    repeat split; intros;
    rewrite ?has_sep_app, ?has_sep_basename;
    try reflexivity; try discriminate; try apply endswith_app.
  symmetry. apply append_empty_r.
Qed.

End EditorMore.

(** ** More of the editor on the sample hosts *)

Lemma add_repl_connects_witness :
  exists w',
    Editor.add_repl (H := posix_host) (Return (Some "ttyACM0")) None
      (initial ∅ "day") = Ok tt w'
    /\ editor_repl w' = Some {| port := "/dev/ttyACM0" |}
    /\ splitter w' = [ {| pane_port := "/dev/ttyACM0" |} ].
Proof.
  destruct (add_repl_connects (H := posix_host) (initial ∅ "day")
              "t" "tyACM0" "/dev/ttyACM0" eq_refl eq_refl)
    as (w' & Hrun & Hrepl & _ & Hsplit & _).
  exists w'. split; [exact Hrun|]. split; [exact Hrepl | exact Hsplit].
Defined.

Lemma add_repl_without_device_witness :
  exists information,
    Editor.add_repl (H := posix_host) (Return None) None (initial ∅ "day")
    = Ok tt (log (ShowMessage "Could not find an attached BBC micro:bit."
                    (Some information) None) (initial ∅ "day")).
Proof.
  apply (add_repl_without_device (H := posix_host) (initial ∅ "day")
           None None eq_refl eq_refl).
Defined.

Lemma add_repl_recovers_from_io_error_witness :
  exists information w',
    Editor.add_repl (H := posix_host) (Return (Some "ttyACM0"))
      (Some (IOError "could not open port")) (initial ∅ "day") = Ok tt w'
    /\ editor_repl w' = None
    /\ trace w' = [ShowMessage "could not open port" (Some information) None].
Proof.
  destruct (add_repl_recovers_from_io_error (H := posix_host)
              (initial ∅ "day") "t" "tyACM0" "/dev/ttyACM0"
              (IOError "could not open port") eq_refl eq_refl eq_refl)
    as (information & w' & Hrun & -> & _).
  exists information. eexists. split; [exact Hrun|]. split; reflexivity.
Defined.

Lemma add_repl_unsupported_host_witness :
  Editor.add_repl (H := other_host) (Return (Some "ttyACM0")) None
    (initial ∅ "day")
  = Raise (NotImplementedError "OS not supported.") (initial ∅ "day").
Proof.
  apply (add_repl_unsupported_host (H := other_host) (initial ∅ "day")
           "t" "tyACM0" None eq_refl eq_refl).
Defined.

Lemma add_repl_leaves_stale_session_witness :
  Editor.add_repl (H := posix_host) (Return (Some "ttyACM0"))
    (Some (ValueError "bad port")) (initial ∅ "day")
  = Raise (ValueError "bad port")
      (set_editor_repl (Some {| port := "/dev/ttyACM0" |}) (initial ∅ "day")).
Proof.
  destruct (add_repl_leaves_stale_session (H := posix_host)
              (initial ∅ "day") "t" "tyACM0" "/dev/ttyACM0"
              (ValueError "bad port") eq_refl eq_refl eq_refl eq_refl)
    as (Hrun & _).
  exact Hrun.
Defined.

Lemma add_then_remove_repl_witness :
  exists w1 w2,
    Editor.add_repl (H := posix_host) (Return (Some "ttyACM0")) None
      (initial ∅ "day") = Ok tt w1
    /\ Editor.remove_repl w1 = Ok tt w2
    /\ same_state (initial ∅ "day") w2.
Proof.
  destruct (add_then_remove_repl (H := posix_host) (initial ∅ "day")
              "t" "tyACM0" "/dev/ttyACM0" eq_refl eq_refl eq_refl eq_refl)
    as (w1 & w2 & Hadd & Hremove & Hsame & _).
  exists w1, w2. split; [exact Hadd|]. split; [exact Hremove | exact Hsame].
Defined.

Lemma toggle_repl_alternates_witness :
  exists w',
    Editor.toggle_repl (H := posix_host) (Return None) None connected_world
    = Ok tt w'
    /\ editor_repl w' = None.
Proof.
  destruct (toggle_repl_alternates (H := posix_host) connected_world
              None None) as [_ Hclose].
  destruct (Hclose {| port := "/dev/ttyACM0" |}
              {| pane_port := "/dev/ttyACM0" |} eq_refl eq_refl)
    as (w' & Hrun & Hrepl & _).
  exists w'. split; [exact Hrun | exact Hrepl].
Defined.

Lemma pane_has_session_witness :
  let w := final (run_op (H := posix_host)
                    (AddRepl (Return (Some "ttyACM0")) None)
                    (initial ∅ "day")) in
  splitter w = [ {| pane_port := "/dev/ttyACM0" |} ]
  /\ is_Some (editor_repl w).
Proof.
  exact (pane_has_session (H := posix_host) _
           (reachable_step (H := posix_host) _
              (AddRepl (Return (Some "ttyACM0")) None)
              (reachable_initial ∅ "day"))).
Defined.

Lemma load_missing_file_is_silent_witness :
  Editor.load (H := posix_host) "/home/mu/micropython/gone.py"
    (initial ∅ "day")
  = Ok tt (log (GetLoadPath "/home/mu/micropython") (initial ∅ "day")).
Proof.
  destruct (load_missing_file_is_silent (H := posix_host) (initial ∅ "day")
              "/home/mu/micropython/gone.py") as (Hrun & _).
  - reflexivity.
  - exact Hrun.
Defined.

Lemma load_opens_script_witness :
  exists w',
    Editor.load (H := posix_host) "/home/mu/micropython/count.py" saved_world
    = Ok tt w'
    /\ tabs w' !! current_index w'
       = Some {| path := Some "/home/mu/micropython/count.py";
                 text := "n = 0"; modified := false |}.
Proof.
  destruct (load_opens_script (H := posix_host) saved_world
              "/home/mu/micropython/count.py" "n = 0")
    as (w' & Hrun & _ & Hcur & _).
  - reflexivity.
  - reflexivity.
  - exists w'. split; [exact Hrun | exact Hcur].
Defined.


Lemma save_is_idempotent_witness :
  exists w1 w2,
    Editor.save (H := posix_host) "/home/mu/micropython/hello" untitled_world
    = Ok tt w1
    /\ Editor.save (H := posix_host) "" w1 = Ok tt w2
    /\ fs w2 = fs w1 /\ tabs w2 = tabs w1.
Proof.
  destruct (save_is_idempotent (H := posix_host) untitled_world
              {| path := None; text := "display.scroll('hi')";
                 modified := true |}
              "/home/mu/micropython/hello" ""
              "/" "home/mu/micropython/hello")
    as (w1 & w2 & Hsave & Hagain & Hfs & Htabs & _).
  - reflexivity.
  - reflexivity.
  - exists w1, w2. repeat split; assumption.
Defined.

Lemma save_then_quit_does_not_ask_witness :
  exists w1 w2,
    Editor.save (H := posix_host) "/home/mu/micropython/hello" untitled_world
    = Ok tt w1
    /\ Editor.quit (H := posix_host) [] QCancel w1 = Raise (SystemExit 0) w2
    /\ trace w2 = trace w1.
Proof.
  destruct (save_then_quit_does_not_ask (H := posix_host) untitled_world
              {| path := None; text := "display.scroll('hi')";
                 modified := true |}
              "/home/mu/micropython/hello" "/" "home/mu/micropython/hello"
              [] QCancel)
    as (w1 & w2 & Hsave & Hquit & Htrace & _).
  - reflexivity.
  - reflexivity.
  - intros [|j] t Hj Hlookup; [contradiction | discriminate Hlookup].
  - exists w1, w2. split; [exact Hsave|]. split; [exact Hquit | exact Htrace].
Defined.

Lemma quit_then_restore_round_trip_witness :
  exists w1 w2,
    Editor.quit (H := posix_host) [] QCancel saved_world
    = Raise (SystemExit 0) w1
    /\ Editor.restore_session (H := posix_host) (initial (fs w1) "night")
       = Ok tt w2
    /\ tabs w2
       = [ new_EditorPane (Some "/home/mu/micropython/blink.py")
             "display.scroll('hi')";
           new_EditorPane (Some "/home/mu/micropython/count.py") "n = 0" ].
Proof.
  destruct (quit_then_restore_round_trip (H := posix_host) saved_world
              [] QCancel "night")
    as (w1 & w2 & Hquit & Hrestore & Htabs).
  - left. reflexivity.
  - reflexivity.
  - repeat constructor.
  - repeat constructor; discriminate.
  - exists w1, w2. split; [exact Hquit|]. split; [exact Hrestore|exact Htabs].
Defined.

Lemma fresh_start_then_quit_witness :
  exists w1 w2,
    Editor.restore_session (H := posix_host) (initial ∅ "day") = Ok tt w1
    /\ Editor.quit (H := posix_host) [] QCancel w1 = Raise (SystemExit 0) w2
    /\ fs w2 !! "/home/mu/.local/share/mu/tabs.json" = Some "".
Proof.
  destruct (fresh_start_then_quit (H := posix_host) ∅ "day" [] QCancel)
    as (w1 & w2 & Hstart & _ & Hquit & _ & Hfs).
  - reflexivity.
  - exists w1, w2. split; [exact Hstart|]. split; [exact Hquit|].
    rewrite Hfs. reflexivity.
Defined.

Lemma restore_session_fails_on_unreadable_session_witness :
  Editor.restore_session (H := other_host) unreadable_session_world
  = Raise (ValueError "Expecting value: line 1 column 1 (char 0)")
      unreadable_session_world.
Proof.
  apply (restore_session_fails_on_unreadable_session (H := other_host)
           unreadable_session_world "not json"); reflexivity.
Defined.

Lemma editor_writes_only_its_files_witness :
  fs (final (run_op (H := posix_host) (Save "/etc/passwd") untitled_world))
    !! "/etc/passwd"
  = fs untitled_world !! "/etc/passwd".
Proof.
  apply (editor_writes_only_its_files (H := posix_host)
           (Save "/etc/passwd") untitled_world "/etc/passwd").
  - exact I.
  - reflexivity.
  - reflexivity.
  - discriminate.
Defined.

Lemma toggle_theme_flips_witness :
  exists w1 w2,
    Editor.toggle_theme (initial ∅ "day") = Ok tt w1
    /\ editor_theme w1 = "night"
    /\ Editor.toggle_theme w1 = Ok tt w2
    /\ editor_theme w2 = "day".
Proof.
  destruct (toggle_theme_flips (H := posix_host) (initial ∅ "day")
              (reachable_initial ∅ "day"))
    as (_ & w1 & w2 & Hrun & _ & _ & Hagain & Hback & _).
  exists w1, w2. split; [exact Hrun|].
  split; [injection Hrun as <-; reflexivity|].
  split; [exact Hagain | exact Hback].
Defined.

Lemma flash_writes_image_witness :
  exists information w',
    Editor.flash (H := posix_host) (Return (Some "/media/MICROBIT"))
      untitled_world = Ok tt w'
    /\ fs w' !! "/media/MICROBIT/micropython.hex"
       = Some (":020000040000FA" ++ String "010" "display.scroll('hi')")
    /\ last (trace w')
       = Some (ShowMessage
                 ("Flashing " ++ Editor.dquote ++ "untitled *"
                    ++ Editor.dquote ++ " onto the micro:bit.")
                 (Some information) (Some "Information")).
Proof.
  destruct (flash_writes_image (H := posix_host) untitled_world
              {| path := None; text := "display.scroll('hi')";
                 modified := true |}
              "display.scroll('hi')"
              (":020000040000FA" ++ String "010" "display.scroll('hi')")
              "/" "media/MICROBIT")
    as (information & w' & Hrun & Hfs & _ & Htrace).
  - reflexivity.
  - reflexivity.
  - reflexivity.
  - exists information, w'. split; [exact Hrun|].
    rewrite Hfs, Htrace. split; reflexivity.
Defined.

Lemma label_names_the_file_witness :
  endswith
    (label {| path := Some "/home/mu/micropython/blink.py";
              text := "display.scroll('hi')"; modified := true |})
    " *" = true
  /\ label {| path := Some "/home/mu/micropython/blink.py";
              text := "display.scroll('hi')"; modified := true |}
     = "blink.py *".
Proof.
  destruct (label_names_the_file
              {| path := Some "/home/mu/micropython/blink.py";
                 text := "display.scroll('hi')"; modified := true |})
    as (_ & Hlabel & Hstar).
  split; [apply Hstar; reflexivity | exact Hlabel].
Defined.

Lemma load_image_then_save_asks_witness :
  exists w1 w2,
    Editor.load (H := posix_host) "/media/MICROBIT/micropython.hex"
      flashed_world = Ok tt w1
    /\ Editor.save (H := posix_host) "/home/mu/micropython/recovered" w1
       = Ok tt w2
    /\ fs w2 !! "/home/mu/micropython/recovered.py"
       = Some "display.scroll('hi')".
Proof.
  destruct (load_image_then_save_asks (H := posix_host) flashed_world
              "/media/MICROBIT/micropython.hex"
              (":020000040000FA" ++ String "010" "display.scroll('hi')")
              "display.scroll('hi')" "/" "home/mu/micropython/recovered")
    as (w1 & w2 & Hload & _ & Hsave & _ & Hfs & _).
  - reflexivity.
  - reflexivity.
  - reflexivity.
  - exists w1, w2. split; [exact Hload|]. split; [exact Hsave|].
    rewrite Hfs. reflexivity.
Defined.

